(** * Session-authentication guard of meilisearch-ui

    A shallow embedding of the client-side authentication core:

    - [src/lib/auth.ts]: [isAuthRequired], [isAuthenticated], [login],
      [logout], [getRedirectUrl];
    - [src/hooks/useAuthGuard.ts]: the effect of [useAuthGuard] (its
      [checkAuth], interval callback and [handleStorageChange]) and
      [validateSession];
    - [src/components/auth/AuthGuard.tsx]: the [AuthGuard] component;
    - [src/routes/__root.tsx]: the root route's [beforeLoad].

    The browser and the collaborators the code calls into (session storage,
    the console, the application store's setter, the router, timers and
    event listeners) are modelled as one explicit [World] that every
    operation threads through a state-and-exception monad. *)

From Stdlib Require Import String Ascii Strings.Byte NArith List Bool.
From stdpp Require Import base option list gmap strings.

Local Open Scope string_scope.

(** ** The host platform *)

Module Js.

(** A JavaScript value read from [import.meta.env] or returned by
    [Storage.getItem] / [URLSearchParams.get]: a string, or absent
    ([undefined] / [null]). *)
Definition truthy (v : option string) : bool :=
  match v with
  | Some s => negb (s =? "")
  | None => false
  end.

(** A value that is empty or absent. *)
Definition blank (v : option string) : Prop := v = None ∨ v = Some "".

(** [a && b] on such values: [a] when [a] is falsy, [b] otherwise. *)
Definition js_and (a b : option string) : option string :=
  if truthy a then b else a.

(** [a || b] with a string fallback. *)
Definition js_or (a : option string) (b : string) : string :=
  match a with
  | Some s => if s =? "" then b else s
  | None => b
  end.

(** [a ?? b] with a string fallback. *)
Definition nullish (a : option string) (b : string) : string :=
  default b a.

(** [s.replace(/\/$/, "")]: drop one trailing slash. *)
Fixpoint strip_trailing_slash (s : string) : string :=
  match s with
  | EmptyString => EmptyString
  | String c EmptyString => if Ascii.eqb c "/" then EmptyString else s
  | String c rest => String c (strip_trailing_slash rest)
  end.

(** [window.sessionStorage].  Reading the property itself throws a
    [SecurityError] when the user agent denies storage access; otherwise it
    is a string-keyed map of strings. *)
Inductive Storage : Type :=
| Available (items : gmap string string)
| Denied.

(** The entry stored under [key], if the storage can be read at all. *)
Definition stored (s : Storage) (key : string) : option string :=
  match s with
  | Available items => items !! key
  | Denied => None
  end.

(** Options passed to the router's [navigate]. *)
Record NavigateOptions : Type := MkNavigate {
  nav_to : string;
  nav_replace : bool
}.

(** Options passed to the router's [redirect]; [search.redirect] is the
    only search parameter the code ever supplies. *)
Record RedirectOptions : Type := MkRedirect {
  redirect_to : string;
  redirect_search : option string
}.

(** What can be thrown: the platform's [SecurityError]; the object built by
    the router's [redirect(...)]; or what a digest computation fails with
    (the [TypeError] of reaching for [crypto.subtle.digest] where
    [crypto.subtle] is undefined, or the rejection of the digest's
    promise). *)
Inductive Exn : Type :=
| SecurityError
| Redirected (r : RedirectOptions)
| DigestError.

(** Calls into collaborators, in the order they are made. *)
Inductive Effect : Type :=
| ConsoleDebug (tag msg : string)
| SetAuthenticated (value : bool)
| Navigate (opts : NavigateOptions).

Record World : Type := MkWorld {
  sessionStorage : Storage;
  (** [new URLSearchParams(window.location.search)], as its entries in
      order *)
  location_search : list (string * string);
  (** active [setInterval] handles with their delay in milliseconds *)
  intervals : gmap positive nat;
  (** registered ["storage"] listeners, in registration order *)
  storage_listeners : list positive;
  (** source of fresh handles *)
  next_handle : positive;
  (** console output, store updates and navigation requests so far *)
  trace : list Effect
}.

Inductive Result (A : Type) : Type :=
| Ok (a : A)
| Throw (e : Exn).
Arguments Ok {A} a.
Arguments Throw {A} e.

(** A computation: from a world to a result and the world it leaves. *)
Definition M (A : Type) : Type := World → Result A * World.

Definition ret {A} (a : A) : M A := λ w, (Ok a, w).

Definition bind {A B} (m : M A) (k : A → M B) : M B :=
  λ w, match m w with
       | (Ok a, w') => k a w'
       | (Throw e, w') => (Throw e, w')
       end.

Definition throw {A} (e : Exn) : M A := λ w, (Throw e, w).

(** [await p] for a promise [p] that settles with [r], touching nothing. *)
Definition await {A} (r : Result A) : M A := λ w, (r, w).

(** [Promise.all([p, q])] once both have settled: the pair of values, or a
    rejection.  When both reject, the one that rejects first in time wins;
    the array order is taken for that here. *)
Definition promise_all {A B} (p : Result A) (q : Result B) : Result (A * B) :=
  match p, q with
  | Ok a, Ok b => Ok (a, b)
  | Throw e, _ => Throw e
  | Ok _, Throw e => Throw e
  end.

Definition result_of {A} (m : M A) (w : World) : Result A := fst (m w).
Definition world_after {A} (m : M A) (w : World) : World := snd (m w).

(** The monad is used through stdpp's notations [x ← m; k] and [m;; k]. *)
#[global] Instance M_ret : MRet M := @ret.
#[global] Instance M_bind : MBind M := λ A B k m, bind m k.

(** [a && m] where [a] is already a boolean and [m] is only evaluated
    when [a] holds. *)
Definition and_then (a : bool) (m : M bool) : M bool :=
  if a then m else ret false.

Definition js_not (m : M bool) : M bool := b ← m; ret (negb b).

(** *** Session storage *)

Definition with_storage (s : Storage) (w : World) : World :=
  MkWorld s (location_search w) (intervals w) (storage_listeners w)
          (next_handle w) (trace w).

Definition getItem (key : string) : M (option string) :=
  λ w, match sessionStorage w with
       | Available items => (Ok (items !! key), w)
       | Denied => (Throw SecurityError, w)
       end.

Definition setItem (key value : string) : M unit :=
  λ w, match sessionStorage w with
       | Available items =>
           (Ok tt, with_storage (Available (<[key := value]> items)) w)
       | Denied => (Throw SecurityError, w)
       end.

Definition removeItem (key : string) : M unit :=
  λ w, match sessionStorage w with
       | Available items => (Ok tt, with_storage (Available (delete key items)) w)
       | Denied => (Throw SecurityError, w)
       end.

(** *** Console, store and router *)

(** The world with [es] appended to its trace. *)
Definition logged (es : list Effect) (w : World) : World :=
  MkWorld (sessionStorage w) (location_search w) (intervals w)
          (storage_listeners w) (next_handle w) (trace w ++ es).

Definition emit (e : Effect) : M unit := λ w, (Ok tt, logged [e] w).

Definition console_debug (tag msg : string) : M unit := emit (ConsoleDebug tag msg).
Definition setAuthenticated (value : bool) : M unit := emit (SetAuthenticated value).
Definition navigate (opts : NavigateOptions) : M unit := emit (Navigate opts).

(** [URLSearchParams.get]: the value of the first entry named [name]. *)
Fixpoint params_get (entries : list (string * string)) (name : string)
  : option string :=
  match entries with
  | [] => None
  | (k, v) :: rest => if k =? name then Some v else params_get rest name
  end.

Definition search_param (name : string) : M (option string) :=
  λ w, (Ok (params_get (location_search w) name), w).

(** *** Timers and listeners *)

Definition setInterval (delay : nat) : M positive :=
  λ w, let h := next_handle w in
       (Ok h,
        MkWorld (sessionStorage w) (location_search w)
                (<[h := delay]> (intervals w)) (storage_listeners w)
                (Pos.succ h) (trace w)).

Definition clearInterval (h : positive) : M unit :=
  λ w, (Ok tt,
        MkWorld (sessionStorage w) (location_search w)
                (delete h (intervals w)) (storage_listeners w)
                (next_handle w) (trace w)).

Definition addStorageListener : M positive :=
  λ w, let l := next_handle w in
       (Ok l,
        MkWorld (sessionStorage w) (location_search w) (intervals w)
                (storage_listeners w ++ [l]) (Pos.succ l) (trace w)).

Definition removeStorageListener (l : positive) : M unit :=
  λ w, (Ok tt,
        MkWorld (sessionStorage w) (location_search w) (intervals w)
                (filter (λ l', l' ≠ l) (storage_listeners w))
                (next_handle w) (trace w)).

End Js.

(** ** [src/lib/auth.ts] *)

Module Auth.
Import Js.

(** The build-time configuration read through [import.meta.env]. *)
Record Env : Type := MkEnv {
  VITE_AUTH_USERNAME : option string;
  VITE_AUTH_PASSWORD : option string;
  BASE_URL : option string
}.

Definition AUTH_SESSION_KEY : string := "meilisearch-ui-auth".

(** The text [TextEncoder.encode] sees for a configuration value: the string
    itself, or the empty string for [undefined]. *)
Definition text (v : option string) : string := default "" v.

Section WithEnv.

Variable env : Env.

(** [hashPassword]: what its promise settles with for a given password --
    the lower-case hexadecimal SHA-256 digest computed by the Web Crypto
    API, or the exception it rejects with when the digest cannot be
    computed.  It is taken as a parameter; nothing else is assumed of it
    here. *)
Variable hashPassword : string → Result string.

Definition isAuthRequired : bool :=
  let username := VITE_AUTH_USERNAME env in
  let password := VITE_AUTH_PASSWORD env in
  truthy (js_and username password).

Definition isAuthenticated : M bool :=
  if negb isAuthRequired then
    mret true
  else
    authState ← getItem AUTH_SESSION_KEY;
    mret (bool_decide (authState = Some "authenticated")).

(** [login] is an [async] function: it suspends once, on the two digests,
    between the [isAuthRequired] test and the comparison, and rejects there,
    before anything is compared, logged or stored, when a digest fails.
    Nothing it reads afterwards depends on the world, so the suspension is a
    plain sequencing point here. *)
Definition login (username password : string) : M bool :=
  if negb isAuthRequired then
    setItem AUTH_SESSION_KEY "authenticated";;
    mret true
  else
    let expectedUsername := VITE_AUTH_USERNAME env in
    let expectedPassword := VITE_AUTH_PASSWORD env in
    '(providedPasswordHash, expectedPasswordHash) ←
      await (promise_all (hashPassword password)
                         (hashPassword (text expectedPassword)));
    let usernameMatch := bool_decide (Some username = expectedUsername) in
    let passwordMatch := providedPasswordHash =? expectedPasswordHash in
    if usernameMatch && passwordMatch then
      setItem AUTH_SESSION_KEY "authenticated";;
      console_debug "[auth]" "Login successful";;
      mret true
    else
      console_debug "[auth]" "Login failed - invalid credentials";;
      mret false.

(** A name for the validity test [isAuthRequired() && !isAuthenticated()],
    which the guard and the route gate each write out inline. *)
Definition session_lost : M bool :=
  and_then isAuthRequired (js_not isAuthenticated).

Definition logout : M unit :=
  removeItem AUTH_SESSION_KEY;;
  console_debug "[auth]" "User logged out".

Definition getRedirectUrl : M string :=
  redirect ← search_param "redirect";
  let baseUrl := js_or (BASE_URL env) "/" in
  match redirect with
  | Some target =>
      if negb (target =? "") && String.prefix baseUrl target
      then mret target
      else mret baseUrl
  | None => mret baseUrl
  end.

End WithEnv.

End Auth.

(** ** [src/hooks/useAuthGuard.ts] *)

Module Guard.
Import Js Auth.

(** What one rendered guard owns between its effect and its cleanup:
    [intervalRef.current], and the listener the cleanup closure captured
    ([None] when the effect returned no cleanup). *)
Record Subscription : Type := MkSubscription {
  intervalRef : option positive;
  cleanup : option positive
}.

Definition unmounted : Subscription := MkSubscription None None.

Section WithEnv.

Variable env : Env.

Definition checkAuth : M unit :=
  lost ← and_then (isAuthRequired env) (js_not (isAuthenticated env));
  if (lost : bool) then
    console_debug "[auth-guard]" "Session lost, redirecting to login";;
    setAuthenticated false;;
    navigate (MkNavigate "/login" true)
  else
    mret tt.

(** What a check that finds the session lost does, in order: one line of
    console output, the store's flag set to false, and a history-replacing
    navigation to the login page. *)
Definition tripped : list Effect :=
  [ ConsoleDebug "[auth-guard]" "Session lost, redirecting to login";
    SetAuthenticated false;
    Navigate (MkNavigate "/login" true) ].

(** The callback handed to [setInterval]. *)
Definition onInterval : M unit := checkAuth.

(** [handleStorageChange], applied to an event whose [key] is [key]. *)
Definition handleStorageChange (key : option string) : M unit :=
  if bool_decide (key = Some "meilisearch-ui-auth") || bool_decide (key = None) then
    console_debug "[auth-guard]" "Storage event detected, checking auth state";;
    checkAuth
  else
    mret tt.

(** The keys [handleStorageChange] reacts to: the session key, or [null]. *)
Definition concerns_session (key : option string) : Prop :=
  key = Some AUTH_SESSION_KEY ∨ key = None.

(** The body of the hook's [useEffect]. *)
Definition effect (skipMonitoring : bool) (sub : Subscription) : M Subscription :=
  if skipMonitoring then
    mret (MkSubscription (intervalRef sub) None)
  else
    checkAuth;;
    h ← setInterval 1000;
    l ← addStorageListener;
    mret (MkSubscription (Some h) (Some l)).

(** The cleanup closure the effect returned, if any. *)
Definition run_cleanup (sub : Subscription) : M Subscription :=
  match cleanup sub with
  | None => mret sub
  | Some l =>
      match intervalRef sub with
      | Some h => clearInterval h
      | None => mret tt
      end;;
      removeStorageListener l;;
      mret (MkSubscription (intervalRef sub) None)
  end.

(** Mounting a fresh instance of the hook. *)
Definition useAuthGuard (skipMonitoring : bool) : M Subscription :=
  effect skipMonitoring unmounted.

Definition validateSession : M bool :=
  if negb (isAuthRequired env) then
    mret true
  else
    isValid ← isAuthenticated env;
    ((if negb isValid then
        console_debug "[auth-guard]" "Session validation failed";;
        logout
      else
        mret tt) : M unit);;
    mret isValid.

End WithEnv.

End Guard.

(** ** [src/components/auth/AuthGuard.tsx] *)

Module AuthGuard.
Import Js Auth.

Section WithEnv.

Variable env : Env.

Definition isLoginPage (pathname : string) : bool := pathname =? "/login".

(** The component's own [useEffect]. *)
Definition effect (pathname : string) : M unit :=
  if isAuthRequired env then
    currentlyAuthenticated ← isAuthenticated env;
    setAuthenticated currentlyAuthenticated;;
    if negb currentlyAuthenticated && negb (isLoginPage pathname) then
      console_debug "[auth-guard]"
        "User not authenticated on mount, redirecting to login";;
      navigate (MkNavigate "/login" true)
    else
      mret tt
  else
    setAuthenticated true.

(** The render body after the hooks: [true] when the children are rendered,
    [false] when the component renders [null]. *)
Definition render (pathname : string) : M bool :=
  if negb (isAuthRequired env) then mret true
  else if isLoginPage pathname then mret true
  else
    authenticated ← isAuthenticated env;
    if (authenticated : bool) then mret true else mret false.

(** First mount at [pathname]: the render, then the effects in the order
    the hooks are called: the guard hook's, then the component's own. *)
Definition mount (pathname : string) : M (bool * Guard.Subscription) :=
  rendered ← render pathname;
  sub ← Guard.useAuthGuard env (isLoginPage pathname);
  effect pathname;;
  mret (rendered, sub).

End WithEnv.

End AuthGuard.

(** ** [src/routes/__root.tsx] *)

Module Root.
Import Js Auth.

Section WithEnv.

Variable env : Env.

(** [beforeLoad({ location })], applied to [location.pathname].  Returning
    allows the navigation; [throw redirect(...)] aborts it. *)
Definition beforeLoad (pathname : string) : M unit :=
  lost ← and_then (isAuthRequired env) (js_not (isAuthenticated env));
  if (lost : bool) then
    if pathname =? "/login" then
      mret tt
    else
      console_debug "[auth]" "User not authenticated, redirecting to login";;
      let baseUrl := strip_trailing_slash (nullish (BASE_URL env) "") in
      throw (Redirected (MkRedirect "/login" (Some pathname)))
  else
    onLogin ← and_then (pathname =? "/login") (isAuthenticated env);
    if (onLogin : bool) then
      console_debug "[auth]" "User already authenticated, redirecting to home";;
      throw (Redirected (MkRedirect "/" None))
    else
      mret tt.

End WithEnv.

End Root.

(** ** The event loop *)

Module Loop.
Import Js Auth.

(** What the host delivers to a mounted page. *)
Inductive Event : Type :=
| Tick (handle : positive)
| StorageChanged (key : option string).

Section WithEnv.

Variable env : Env.

(** Run [callback] once per registered listener.  An exception thrown by a
    callback is reported by the host and does not stop the others. *)
Fixpoint dispatch (callback : M unit) (listeners : list positive) (w : World)
  : World :=
  match listeners with
  | [] => w
  | _ :: rest => dispatch callback rest (world_after callback w)
  end.

(** Deliver one event.  Every interval and every ["storage"] listener of the
    page is one the guard hook registered. *)
Definition deliver (e : Event) (w : World) : World :=
  match e with
  | Tick h =>
      match intervals w !! h with
      | Some _ => world_after (Guard.onInterval env) w
      | None => w
      end
  | StorageChanged key =>
      dispatch (Guard.handleStorageChange env key) (storage_listeners w) w
  end.

Definition run (events : list Event) (w : World) : World :=
  fold_left (λ w e, deliver e w) events w.

End WithEnv.

End Loop.

(** ** Concrete configurations and worlds *)

Module Sample.
Import Js Auth.

(** Credentials ["admin"] / ["secret"], served from the root. *)
Definition env_admin : Env := MkEnv (Some "admin") (Some "secret") (Some "/").

(** Nothing configured: open access. *)
Definition env_open : Env := MkEnv None None None.

(** A stand-in digest for examples; it always resolves and has no
    collisions. *)
Definition tag_digest (s : string) : Result string := Ok ("sha256:" ++ s).

(** A page served in a context without [crypto.subtle]: every digest
    fails. *)
Definition no_digest (s : string) : Result string := Throw DigestError.

(** A freshly loaded page: empty storage, nothing registered. *)
Definition fresh : World := MkWorld (Available ∅) [] ∅ [] 1%positive [].

(** The same page after a successful login. *)
Definition signed_in : World :=
  MkWorld (Available {[ AUTH_SESSION_KEY := "authenticated" ]}) [] ∅ [] 1%positive [].

(** A page whose user agent denies access to session storage. *)
Definition blocked : World := MkWorld Denied [] ∅ [] 1%positive [].

(** The login page reached with [?redirect=target]. *)
Definition returning (target : string) : World :=
  MkWorld (Available ∅) [("redirect", target)] ∅ [] 1%positive [].

End Sample.

(** ** Components with local state *)

Module Ui.
Import Js.

(** A computation of a component that owns local state [S] (React state,
    open modals) next to the world.  An exception keeps the state reached
    when it was thrown. *)
Definition L (S A : Type) : Type := S → World → Result A * (S * World).

Definition lret {S A} (a : A) : L S A := λ s w, (Ok a, (s, w)).

Definition lbind {S A B} (m : L S A) (k : A → L S B) : L S B :=
  λ s w, match m s w with
         | (Ok a, (s', w')) => k a s' w'
         | (Throw e, sw) => (Throw e, sw)
         end.

#[global] Instance L_ret (S : Type) : MRet (L S) := @lret S.
#[global] Instance L_bind (S : Type) : MBind (L S) := λ A B k m, lbind m k.

(** Run a computation on the world alone. *)
Definition lift {S A} (m : M A) : L S A :=
  λ s w, match m w with (r, w') => (r, (s, w')) end.

Definition modify {S} (f : S → S) : L S unit := λ s w, (Ok tt, (f s, w)).

(** [try { body } catch (err) { handler(err) }] *)
Definition try_catch {S A} (body : L S A) (handler : Exn → L S A) : L S A :=
  λ s w, match body s w with
         | (Ok a, sw) => (Ok a, sw)
         | (Throw e, (s', w')) => handler e s' w'
         end.

(** [try { body } finally { final }]: [final] runs either way; the outcome
    is [body]'s unless [final] itself throws. *)
Definition try_finally {S A} (body : L S A) (final : L S unit) : L S A :=
  λ s w, match body s w with
         | (r, (s', w')) =>
             match final s' w' with
             | (Ok _, sw) => (r, sw)
             | (Throw e, sw) => (Throw e, sw)
             end
         end.

Definition outcome {S A} (m : L S A) (s : S) (w : World) : Result A :=
  fst (m s w).
Definition state_after {S A} (m : L S A) (s : S) (w : World) : S :=
  fst (snd (m s w)).
Definition page_world_after {S A} (m : L S A) (s : S) (w : World) : World :=
  snd (snd (m s w)).

End Ui.

(** ** [src/routes/login.tsx] *)

Module LoginRoute.
Import Js Auth Ui.

Record LoginForm : Type := MkLoginForm {
  username : string;
  password : string
}.

(** The component's [useState] cells, and what it handed to
    [console.error]. *)
Record PageState : Type := MkPageState {
  loading : bool;
  error : option string;
  console_errors : list Exn
}.

Definition setLoading (value : bool) : L PageState unit :=
  modify (λ s, MkPageState value (error s) (console_errors s)).

Definition setError (value : option string) : L PageState unit :=
  modify (λ s, MkPageState (loading s) value (console_errors s)).

Definition console_error (err : Exn) : L PageState unit :=
  modify (λ s, MkPageState (loading s) (error s) (console_errors s ++ [err])).

Section WithEnv.

Variable env : Env.
Variable hashPassword : string → Result string.

(** The translation function of [useTranslation("auth")]. *)
Variable t : string → string.

Definition handleSubmit (values : LoginForm) : L PageState unit :=
  setLoading true;;
  setError None;;
  try_finally
    (try_catch
       (success ← lift (login env hashPassword (username values)
                          (password values));
        if (success : bool) then
          lift (setAuthenticated true);;
          lift (console_debug "[login]"
                  "Authentication successful, redirecting...");;
          redirectUrl ← lift (getRedirectUrl env);
          lift (navigate (MkNavigate redirectUrl true))
        else
          setError (Some (t "invalid_credentials"));;
          lift (setAuthenticated false))
       (λ err,
          console_error err;;
          setError (Some (t "login_error"));;
          lift (setAuthenticated false)))
    (setLoading false).

End WithEnv.

End LoginRoute.

(** ** [src/components/biz/InsHeader.tsx] *)

Module Header.
Import Js Auth Ui.

Definition modalId : string := "logoutModal".

(** [modals.open] and [modals.close] on the identifiers of the open
    modals. *)
Definition modals_open (id : string) : L (list string) unit :=
  modify (λ opened : list string, (opened ++ [id])%list).

Definition modals_close (id : string) : L (list string) unit :=
  modify (λ opened : list string, filter (λ id', id' ≠ id) opened).

Section WithEnv.

Variable env : Env.

(** [handleLogout]: opens the confirmation modal. *)
Definition handleLogout : L (list string) unit := modals_open modalId.

(** The confirming button's [onClick]. *)
Definition onConfirm : L (list string) unit :=
  lift logout;;
  lift (setAuthenticated false);;
  modals_close modalId;;
  lift (navigate (MkNavigate "/login" false)).

(** The cancelling button's [onClick]. *)
Definition onCancel : L (list string) unit := modals_close modalId.

(** Whether the logout control is rendered at all. *)
Definition showsLogout : bool := isAuthRequired env.

End WithEnv.

End Header.

(** ** [hashPassword] in [src/lib/auth.ts] *)

Module Digest.
Import Js.

(** The digit [Number.prototype.toString(16)] writes for a value below 16. *)
Definition hex_digit (n : N) : ascii :=
  match String.get (N.to_nat n) "0123456789abcdef" with
  | Some c => c
  | None => "0"%char
  end.

(** [b.toString(16)] for an element of a [Uint8Array]: one or two digits. *)
Definition toString16 (b : byte) : string :=
  let n := Byte.to_N b in
  if (n <? 16)%N then String (hex_digit n) EmptyString
  else String (hex_digit (n / 16)) (String (hex_digit (n mod 16)) EmptyString).

Fixpoint repeat_char (n : nat) (c : ascii) : string :=
  match n with
  | O => EmptyString
  | S n' => String c (repeat_char n' c)
  end.

(** [s.padStart(targetLength, pad)] for a one-character [pad]. *)
Definition padStart (targetLength : nat) (pad : ascii) (s : string) : string :=
  repeat_char (targetLength - String.length s) pad ++ s.

(** [hashArray.map((b) => b.toString(16).padStart(2, "0")).join("")] *)
Definition hex_of_bytes (hashArray : list byte) : string :=
  String.concat "" (map (λ b, padStart 2 "0" (toString16 b)) hashArray).

Section WithPlatform.

(** [new TextEncoder().encode]. *)
Variable encode : string → list byte.

(** [await crypto.subtle.digest("SHA-256", data)]: the digest's bytes, or
    the exception thrown when [crypto.subtle] is undefined or the promise
    rejects. *)
Variable digest : list byte → Result (list byte).

(** What the promise [hashPassword] returns settles with. *)
Definition hashPassword (password : string) : Result string :=
  let data := encode password in
  match digest data with
  | Ok hashBuffer =>
      let hashArray := hashBuffer in
      let hashHex := hex_of_bytes hashArray in
      Ok hashHex
  | Throw e => Throw e
  end.

End WithPlatform.

(** Reading the digits back, to compare digests through their text. *)
Definition hex_value (c : ascii) : option N :=
  let n := N_of_ascii c in
  if ((48 <=? n) && (n <=? 57))%N then Some (n - 48)%N
  else if ((97 <=? n) && (n <=? 102))%N then Some (n - 87)%N
  else None.

Fixpoint bytes_of_hex (s : string) : option (list byte) :=
  match s with
  | EmptyString => Some []
  | String hi (String lo rest) =>
      match hex_value hi, hex_value lo, bytes_of_hex rest with
      | Some h, Some l, Some bs =>
          match Byte.of_N (16 * h + l) with
          | Some b => Some (b :: bs)
          | None => None
          end
      | _, _, _ => None
      end
  | String _ EmptyString => None
  end.

Definition is_lower_hex (c : ascii) : bool :=
  match hex_value c with Some _ => true | None => false end.

End Digest.

(** ** The guard across renders *)

Module Lifecycle.
Import Js Auth Guard.

(** Handles in use are older than the next one to be given out. *)
Definition handles_fresh (w : World) : Prop :=
  (∀ h, is_Some (intervals w !! h) → (h < next_handle w)%positive)
  ∧ Forall (λ l, (l < next_handle w)%positive) (storage_listeners w).

(** The world once [setInterval(..., 1000)] and
    [addEventListener("storage", ...)] have run in [w]. *)
Definition armed (w : World) : World :=
  MkWorld (sessionStorage w) (location_search w)
          (<[next_handle w := 1000]> (intervals w))
          (storage_listeners w ++ [Pos.succ (next_handle w)])
          (Pos.succ (Pos.succ (next_handle w))) (trace w).

(** The subscription a guard armed in [w] holds. *)
Definition armed_subscription (w : World) : Subscription :=
  MkSubscription (Some (next_handle w)) (Some (Pos.succ (next_handle w))).

(** A change of the effect's dependencies: the previous cleanup, then the
    effect again. *)
Definition rerun (env : Env) (skipMonitoring : bool) (sub : Subscription)
  : M Subscription :=
  sub' ← run_cleanup sub;
  effect env skipMonitoring sub'.

(** The value the store's flag holds after the calls in a trace: that of
    the last [setAuthenticated]. *)
Definition store_flag (calls : list Effect) : option bool :=
  fold_left (λ flag e,
               match e with
               | SetAuthenticated value => Some value
               | _ => flag
               end) calls None.

(** [w'] differs from [w] at most in the entry under the session key and in
    the trace. *)
Definition same_page (w w' : World) : Prop :=
  location_search w' = location_search w
  ∧ intervals w' = intervals w
  ∧ storage_listeners w' = storage_listeners w
  ∧ next_handle w' = next_handle w
  ∧ (sessionStorage w' = Denied ↔ sessionStorage w = Denied)
  ∧ ∀ key, key ≠ AUTH_SESSION_KEY →
      stored (sessionStorage w') key = stored (sessionStorage w) key.

(** What one run of the guard's check adds to the trace. *)
Definition check_effects (env : Env) (w : World) : list Effect :=
  match result_of (session_lost env) w with
  | Ok true => tripped
  | _ => []
  end.

(** What one storage listener adds to the trace for an event on [key]. *)
Definition reaction (env : Env) (key : option string) (w : World)
  : list Effect :=
  if bool_decide (key = Some AUTH_SESSION_KEY) || bool_decide (key = None)
  then ConsoleDebug "[auth-guard]" "Storage event detected, checking auth state"
       :: check_effects env w
  else [].

Definition is_console (e : Effect) : bool :=
  match e with ConsoleDebug _ _ => true | _ => false end.

Definition is_navigation (e : Effect) : bool :=
  match e with Navigate _ => true | _ => false end.

End Lifecycle.

(** ** More concrete data *)

Module Sample2.
Import Js Auth.

(** A page served under [/ui/] whose login form was reached with
    [?redirect=target]. *)
Definition env_ui : Env := MkEnv (Some "admin") (Some "secret") (Some "/ui/").

(** A signed-in page with a mounted guard: interval 1, listener 2. *)
Definition guarded : World :=
  MkWorld (Available {[ AUTH_SESSION_KEY := "authenticated" ]}) []
          {[ 1%positive := 1000 ]} [2%positive] 3%positive [].

(** The same page after the session key was deleted behind its back. *)
Definition tampered : World :=
  MkWorld (Available ∅) [] {[ 1%positive := 1000 ]} [2%positive] 3%positive [].

(** A stand-in for the platform's digest in examples. *)
Definition toy_digest (data : list byte) : Result (list byte) :=
  Ok (rev data).

(** A platform without [crypto.subtle]. *)
Definition no_subtle (data : list byte) : Result (list byte) :=
  Throw DigestError.

(** A translation function that returns its key. *)
Definition keys (key : string) : string := key.

(** An untouched login form. *)
Definition idle : LoginRoute.PageState := LoginRoute.MkPageState false None [].

End Sample2.

(** * Properties *)

(** ** Configuration and the session predicates *)

Module AuthFacts.
Import Js Auth.

(** Unfold the monad down to functions on worlds. *)
Ltac js_unfold :=
  unfold mbind, M_bind, mret, M_ret, bind, ret, throw, and_then, js_not,
    result_of, world_after, console_debug, setAuthenticated, navigate, emit,
    getItem, setItem, removeItem, search_param, with_storage, logged in *.

Lemma truthy_false_blank (v : option string) : truthy v = false ↔ blank v.
Proof.
  unfold truthy, blank. destruct v as [s|].
  - rewrite negb_false_iff, String.eqb_eq. split.
    + intros ->. by right.
    + intros [?|?]; congruence.
  - split; [by left | done].
Qed.

Lemma truthy_true_not_blank (v : option string) : truthy v = true ↔ ¬ blank v.
Proof.
  rewrite <- truthy_false_blank. destruct (truthy v); split; congruence.
Qed.

Lemma isAuthRequired_eq (env : Env) :
  isAuthRequired env
  = truthy (VITE_AUTH_USERNAME env) && truthy (VITE_AUTH_PASSWORD env).
Proof.
  unfold isAuthRequired, js_and.
  destruct (truthy (VITE_AUTH_USERNAME env)) eqn:Hu; simpl; [done | exact Hu].
Qed.

Lemma isAuthRequired_false (env : Env) :
  isAuthRequired env = false
  ↔ blank (VITE_AUTH_USERNAME env) ∨ blank (VITE_AUTH_PASSWORD env).
Proof.
  rewrite isAuthRequired_eq, andb_false_iff.
  by rewrite !truthy_false_blank.
Qed.

Lemma isAuthRequired_true (env : Env) :
  isAuthRequired env = true
  ↔ ¬ blank (VITE_AUTH_USERNAME env) ∧ ¬ blank (VITE_AUTH_PASSWORD env).
Proof.
  rewrite isAuthRequired_eq, andb_true_iff.
  by rewrite !truthy_true_not_blank.
Qed.

(** Open-access mode: storage is not even read. *)
Lemma isAuthenticated_open (env : Env) (w : World) :
  isAuthRequired env = false → isAuthenticated env w = (Ok true, w).
Proof. intros H. unfold isAuthenticated. by rewrite H. Qed.

Lemma isAuthenticated_available (env : Env) (w : World) items :
  isAuthRequired env = true →
  sessionStorage w = Available items →
  isAuthenticated env w
  = (Ok (bool_decide (items !! AUTH_SESSION_KEY = Some "authenticated")), w).
Proof.
  intros H Hs. unfold isAuthenticated. rewrite H. simpl.
  js_unfold. by rewrite Hs.
Qed.

Lemma isAuthenticated_denied (env : Env) (w : World) :
  isAuthRequired env = true →
  sessionStorage w = Denied →
  isAuthenticated env w = (Throw SecurityError, w).
Proof.
  intros H Hs. unfold isAuthenticated. rewrite H. simpl.
  js_unfold. by rewrite Hs.
Qed.

(** [isAuthenticated] never changes the world. *)
Lemma isAuthenticated_pure (env : Env) (w : World) :
  world_after (isAuthenticated env) w = w.
Proof.
  unfold isAuthenticated. destruct (isAuthRequired env); simpl; [|done].
  js_unfold. by destruct (sessionStorage w).
Qed.

(** C2. When the expected username or the expected password is empty or
    absent, [isAuthRequired] is false and [isAuthenticated] returns true in
    every world, whatever the session storage holds (or even when it cannot
    be read).  When both are non-empty, [isAuthRequired] is true,
    [isAuthenticated] returns true exactly when the entry stored under the
    session key is the marker ["authenticated"], and on a readable storage
    it returns that comparison without touching the world. *)
Theorem session_predicates (env : Env) (w : World) :
  (blank (VITE_AUTH_USERNAME env) ∨ blank (VITE_AUTH_PASSWORD env) →
     isAuthRequired env = false ∧ isAuthenticated env w = (Ok true, w))
  ∧ (¬ blank (VITE_AUTH_USERNAME env) → ¬ blank (VITE_AUTH_PASSWORD env) →
     isAuthRequired env = true
     ∧ (result_of (isAuthenticated env) w = Ok true
        ↔ stored (sessionStorage w) AUTH_SESSION_KEY = Some "authenticated")
     ∧ ∀ items, sessionStorage w = Available items →
         isAuthenticated env w
         = (Ok (bool_decide (items !! AUTH_SESSION_KEY = Some "authenticated")),
            w)).
Proof.
  split.
  - intros Hb. apply isAuthRequired_false in Hb.
    split; [done | by apply isAuthenticated_open].
  - intros Hu Hp.
    assert (Hreq : isAuthRequired env = true) by by apply isAuthRequired_true.
    split; [done|]. split.
    + unfold result_of. destruct (sessionStorage w) as [items|] eqn:Hs.
      * rewrite (isAuthenticated_available env w items Hreq Hs). simpl.
        case_bool_decide; split; congruence.
      * rewrite (isAuthenticated_denied env w Hreq Hs). simpl.
        split; congruence.
    + intros items Hs. by apply isAuthenticated_available.
Qed.

(** What [session_lost] evaluates to, in terms of the two predicates. *)
Lemma session_lost_true (env : Env) (w : World) :
  result_of (session_lost env) w = Ok true
  ↔ isAuthRequired env = true ∧ result_of (isAuthenticated env) w = Ok false.
Proof.
  unfold session_lost, and_then, js_not, result_of.
  destruct (isAuthRequired env) eqn:Hreq.
  - unfold mbind, M_bind, bind, mret, M_ret, ret.
    destruct (isAuthenticated env w) as [[[]|e] w']; simpl;
      split; try intros [_ ?]; try split; congruence.
  - simpl. split; [|intros [? _]]; congruence.
Qed.

Lemma session_lost_false (env : Env) (w : World) :
  result_of (session_lost env) w = Ok false
  ↔ isAuthRequired env = false ∨ result_of (isAuthenticated env) w = Ok true.
Proof.
  unfold session_lost, and_then, js_not, result_of.
  destruct (isAuthRequired env) eqn:Hreq.
  - unfold mbind, M_bind, bind, mret, M_ret, ret.
    destruct (isAuthenticated env w) as [[[]|e] w']; simpl;
      split; try intros [?|?]; try (by right); congruence.
  - simpl. split; [by left | done].
Qed.

Lemma session_lost_pure (env : Env) (w : World) :
  world_after (session_lost env) w = w.
Proof.
  unfold session_lost, and_then, js_not, world_after.
  destruct (isAuthRequired env); [|done].
  unfold mbind, M_bind, bind, mret, M_ret, ret.
  pose proof (isAuthenticated_pure env w) as Hp. unfold world_after in Hp.
  destruct (isAuthenticated env w) as [[b|e] w']; simpl in *; congruence.
Qed.

(** The value of the test and the unchanged world, together. *)
Lemma session_lost_run (env : Env) (w : World) :
  session_lost env w = (result_of (session_lost env) w, w).
Proof.
  rewrite <- (session_lost_pure env w) at 3.
  unfold result_of, world_after. by destruct (session_lost env w).
Qed.

(** The only exception the two predicates can let through is the
    storage's. *)
Lemma isAuthenticated_throws (env : Env) (w : World) (e : Exn) :
  result_of (isAuthenticated env) w = Throw e → e = SecurityError.
Proof.
  unfold result_of. destruct (isAuthRequired env) eqn:Hreq.
  - destruct (sessionStorage w) as [items|] eqn:Hs.
    + by rewrite (isAuthenticated_available env w items Hreq Hs).
    + rewrite (isAuthenticated_denied env w Hreq Hs). simpl. congruence.
  - by rewrite (isAuthenticated_open env w Hreq).
Qed.

Lemma session_lost_throws (env : Env) (w : World) (e : Exn) :
  result_of (session_lost env) w = Throw e → e = SecurityError.
Proof.
  unfold session_lost, and_then, js_not, result_of.
  destruct (isAuthRequired env); [|done].
  unfold mbind, M_bind, bind, mret, M_ret, ret.
  pose proof (isAuthenticated_throws env w) as Hthrow.
  unfold result_of in Hthrow.
  destruct (isAuthenticated env w) as [[b|e'] w']; simpl in *; [done|].
  intros [= <-]. by apply Hthrow.
Qed.

End AuthFacts.

(** ** Login and logout *)

Module LoginFacts.
Import Js Auth AuthFacts.

Lemma configured_required (env : Env) (user pass : string) :
  VITE_AUTH_USERNAME env = Some user →
  VITE_AUTH_PASSWORD env = Some pass →
  user ≠ "" → pass ≠ "" →
  isAuthRequired env = true.
Proof.
  intros Hu Hp Hune Hpne. apply isAuthRequired_true.
  rewrite Hu, Hp. unfold blank. split; intros [?|?]; congruence.
Qed.

(** [login] with authentication required, by cases on the digests, the
    comparison and the storage. *)
Lemma login_required_run (env : Env) (hashPassword : string → Result string)
    (username password : string) (w : World) :
  isAuthRequired env = true →
  login env hashPassword username password w
  = match promise_all (hashPassword password)
            (hashPassword (text (VITE_AUTH_PASSWORD env))) with
    | Ok (provided, expected) =>
        if bool_decide (Some username = VITE_AUTH_USERNAME env)
           && (provided =? expected)
        then
          match sessionStorage w with
          | Available items =>
              (Ok true,
               logged [ConsoleDebug "[auth]" "Login successful"]
                 (with_storage
                    (Available (<[AUTH_SESSION_KEY := "authenticated"]> items))
                    w))
          | Denied => (Throw SecurityError, w)
          end
        else
          (Ok false,
           logged [ConsoleDebug "[auth]" "Login failed - invalid credentials"]
             w)
    | Throw e => (Throw e, w)
    end.
Proof.
  intros Hreq. unfold login. rewrite Hreq. simpl.
  unfold mbind at 1, M_bind at 1, bind at 1, await.
  destruct (promise_all _ _) as [[provided expected]|e]; [|done].
  destruct (bool_decide _ && _); js_unfold; [|done].
  by destruct (sessionStorage w).
Qed.

(** With authentication required, [login] fails exactly by logging one line:
    nothing else in the world moves. *)
Lemma login_rejected (env : Env) (hashPassword : string → Result string)
    (username password provided expected : string) (w : World) :
  isAuthRequired env = true →
  hashPassword password = Ok provided →
  hashPassword (text (VITE_AUTH_PASSWORD env)) = Ok expected →
  bool_decide (Some username = VITE_AUTH_USERNAME env)
  && (provided =? expected) = false →
  login env hashPassword username password w
  = (Ok false,
     logged [ConsoleDebug "[auth]" "Login failed - invalid credentials"] w).
Proof.
  intros Hreq Hp He Hno. rewrite login_required_run by done.
  rewrite Hp, He. simpl. by rewrite Hno.
Qed.

Lemma login_accepted (env : Env) (hashPassword : string → Result string)
    (username password provided expected : string) (w : World) items :
  isAuthRequired env = true →
  hashPassword password = Ok provided →
  hashPassword (text (VITE_AUTH_PASSWORD env)) = Ok expected →
  bool_decide (Some username = VITE_AUTH_USERNAME env)
  && (provided =? expected) = true →
  sessionStorage w = Available items →
  login env hashPassword username password w
  = (Ok true,
     logged [ConsoleDebug "[auth]" "Login successful"]
       (with_storage
          (Available (<[AUTH_SESSION_KEY := "authenticated"]> items)) w)).
Proof.
  intros Hreq Hp He Hyes Hs. rewrite login_required_run by done.
  rewrite Hp, He. simpl. by rewrite Hyes, Hs.
Qed.

(** A digest that fails makes [login] reject with that failure before it
    has compared, logged or stored anything. *)
Lemma login_digest_fails (env : Env) (hashPassword : string → Result string)
    (username password : string) (w : World) (e : Exn) :
  isAuthRequired env = true →
  promise_all (hashPassword password)
    (hashPassword (text (VITE_AUTH_PASSWORD env))) = Throw e →
  login env hashPassword username password w = (Throw e, w).
Proof.
  intros Hreq Hfail. rewrite login_required_run by done. by rewrite Hfail.
Qed.

(** C3, as the code has it.  For a configured credential pair
    [(user, pass)] and a readable session storage: whenever the digest of
    [pass] can be computed, [login user pass] stores the marker under the
    session key and returns true; [login] with a wrong password whose digest
    is computed and differs from that of [pass], or with a wrong username,
    returns false and leaves the world as it was, session storage included,
    except for one line of console output.  Whenever a digest cannot be
    computed, [login] neither returns true nor false: it rejects with the
    digest's failure and leaves the world untouched. *)
Theorem login_outcomes (env : Env) (hashPassword : string → Result string)
    (w : World) (items : gmap string string)
    (user pass wrongUser wrongPass : string) :
  VITE_AUTH_USERNAME env = Some user →
  VITE_AUTH_PASSWORD env = Some pass →
  user ≠ "" → pass ≠ "" →
  sessionStorage w = Available items →
  wrongUser ≠ user →
  wrongPass ≠ pass →
  (∀ digest, hashPassword pass = Ok digest →
     (login env hashPassword user pass w
      = (Ok true,
         logged [ConsoleDebug "[auth]" "Login successful"]
           (with_storage
              (Available (<[AUTH_SESSION_KEY := "authenticated"]> items)) w))
      ∧ stored
          (sessionStorage (world_after (login env hashPassword user pass) w))
          AUTH_SESSION_KEY = Some "authenticated")
     ∧ (∀ wrongDigest,
          hashPassword wrongPass = Ok wrongDigest → wrongDigest ≠ digest →
          login env hashPassword user wrongPass w
          = (Ok false,
             logged [ConsoleDebug "[auth]"
                       "Login failed - invalid credentials"] w)
          ∧ sessionStorage
              (world_after (login env hashPassword user wrongPass) w)
            = sessionStorage w)
     ∧ (login env hashPassword wrongUser pass w
        = (Ok false,
           logged [ConsoleDebug "[auth]"
                     "Login failed - invalid credentials"] w)
        ∧ sessionStorage
            (world_after (login env hashPassword wrongUser pass) w)
          = sessionStorage w))
  ∧ (∀ username password e,
       promise_all (hashPassword password) (hashPassword pass) = Throw e →
       login env hashPassword username password w = (Throw e, w)).
Proof.
  intros Hu Hp Hune Hpne Hs Hwu Hwp.
  pose proof (configured_required env user pass Hu Hp Hune Hpne) as Hreq.
  assert (Htext : text (VITE_AUTH_PASSWORD env) = pass) by by rewrite Hp.
  split.
  - intros digest Hdigest. split; [|split].
    + assert (Hrun : login env hashPassword user pass w
                     = (Ok true,
                        logged [ConsoleDebug "[auth]" "Login successful"]
                          (with_storage
                             (Available
                                (<[AUTH_SESSION_KEY := "authenticated"]>
                                   items)) w))).
      { apply (login_accepted env hashPassword user pass digest digest);
          try done; [by rewrite Htext|].
        rewrite Hu, bool_decide_eq_true_2 by done.
        simpl. apply String.eqb_refl. }
      split; [done|]. unfold world_after. rewrite Hrun. simpl.
      apply lookup_insert_eq.
    + intros wrongDigest Hwrong Hdiff.
      assert (Hrun : login env hashPassword user wrongPass w
                     = (Ok false,
                        logged [ConsoleDebug "[auth]"
                                  "Login failed - invalid credentials"] w)).
      { apply (login_rejected env hashPassword user wrongPass
                 wrongDigest digest); try done; [by rewrite Htext|].
        apply andb_false_iff. right. by apply String.eqb_neq. }
      split; [done|]. unfold world_after. by rewrite Hrun.
    + assert (Hrun : login env hashPassword wrongUser pass w
                     = (Ok false,
                        logged [ConsoleDebug "[auth]"
                                  "Login failed - invalid credentials"] w)).
      { apply (login_rejected env hashPassword wrongUser pass digest digest);
          try done; [by rewrite Htext|].
        rewrite Hu. apply andb_false_iff. left.
        apply bool_decide_eq_false_2. congruence. }
      split; [done|]. unfold world_after. by rewrite Hrun.
  - intros username password e Hfail.
    apply login_digest_fails; [done|]. by rewrite Htext.
Qed.

Lemma logout_available (w : World) items :
  sessionStorage w = Available items →
  logout w
  = (Ok tt,
     logged [ConsoleDebug "[auth]" "User logged out"]
       (with_storage (Available (delete AUTH_SESSION_KEY items)) w)).
Proof. intros Hs. unfold logout. js_unfold. by rewrite Hs. Qed.

Lemma logout_denied (w : World) :
  sessionStorage w = Denied → logout w = (Throw SecurityError, w).
Proof. intros Hs. unfold logout. js_unfold. by rewrite Hs. Qed.

(** A [login] that returned true left a readable storage holding the
    marker. *)
Lemma login_true_stored (env : Env) (hashPassword : string → Result string)
    (username password : string) (w : World) :
  result_of (login env hashPassword username password) w = Ok true →
  ∃ items,
    sessionStorage (world_after (login env hashPassword username password) w)
    = Available items
    ∧ items !! AUTH_SESSION_KEY = Some "authenticated".
Proof.
  unfold result_of, world_after.
  destruct (isAuthRequired env) eqn:Hreq.
  - rewrite login_required_run by done.
    destruct (promise_all _ _) as [[provided expected]|e]; [|done].
    destruct (bool_decide _ && _); [|done].
    destruct (sessionStorage w) as [items|] eqn:Hs; simpl; [|done].
    intros _. eexists. split; [reflexivity | apply lookup_insert_eq].
  - unfold login. rewrite Hreq. simpl. js_unfold.
    destruct (sessionStorage w) as [items|] eqn:Hs; simpl; [|done].
    intros _. eexists. split; [reflexivity | apply lookup_insert_eq].
Qed.

Lemma logout_twice (w : World) :
  sessionStorage (world_after (logout;; logout) w)
  = sessionStorage (world_after logout w)
  ∧ stored (sessionStorage (world_after logout w)) AUTH_SESSION_KEY = None.
Proof.
  unfold world_after. destruct (sessionStorage w) as [items|] eqn:Hs.
  - unfold mbind at 1, M_bind at 1, bind at 1.
    rewrite (logout_available w items Hs).
    erewrite logout_available by reflexivity. simpl.
    split; [by rewrite delete_delete_eq | apply lookup_delete_eq].
  - unfold mbind at 1, M_bind at 1, bind at 1.
    rewrite (logout_denied w Hs). simpl. by rewrite Hs.
Qed.

(** C8. With authentication required, after a [login] that returned true
    [isAuthenticated] returns true; [logout] then succeeds, and after it
    [isAuthenticated] returns false.  In every world, [logout] run twice in
    succession leaves the same session storage as [logout] run once, with
    no entry under the session key. *)
Theorem login_logout_round_trip (env : Env) (hashPassword : string → Result string)
    (username password : string) (w : World) :
  isAuthRequired env = true →
  result_of (login env hashPassword username password) w = Ok true →
  result_of (isAuthenticated env)
    (world_after (login env hashPassword username password) w) = Ok true
  ∧ result_of logout
      (world_after (login env hashPassword username password) w) = Ok tt
  ∧ result_of (isAuthenticated env)
      (world_after logout
         (world_after (login env hashPassword username password) w))
    = Ok false
  ∧ ∀ w' : World,
      sessionStorage (world_after (logout;; logout) w')
      = sessionStorage (world_after logout w')
      ∧ stored (sessionStorage (world_after logout w')) AUTH_SESSION_KEY = None.
Proof.
  intros Hreq Hok.
  destruct (login_true_stored env hashPassword username password w Hok)
    as (items & Hs & Hflag).
  set (w1 := world_after (login env hashPassword username password) w) in *.
  split; [|split; [|split]].
  - unfold result_of. rewrite (isAuthenticated_available env w1 items Hreq Hs).
    simpl. by rewrite bool_decide_eq_true_2.
  - unfold result_of. by rewrite (logout_available w1 items Hs).
  - unfold world_after at 1. rewrite (logout_available w1 items Hs). simpl.
    unfold result_of.
    erewrite isAuthenticated_available by (try done; reflexivity).
    simpl. rewrite bool_decide_eq_false_2; [done|].
    by rewrite lookup_delete_eq.
  - apply logout_twice.
Qed.

End LoginFacts.

(** ** The continuous guard *)

Module GuardFacts.
Import Js Auth Guard AuthFacts LoginFacts.

Lemma logged_logged (es1 es2 : list Effect) (w : World) :
  logged es2 (logged es1 w) = logged (es1 ++ es2) w.
Proof. unfold logged. simpl. by rewrite <- app_assoc. Qed.

Lemma logged_nil (w : World) : logged [] w = w.
Proof. unfold logged. rewrite app_nil_r. by destruct w. Qed.

Lemma checkAuth_run (env : Env) (w : World) :
  checkAuth env w
  = match result_of (session_lost env) w with
    | Ok true => (Ok tt, logged tripped w)
    | Ok false => (Ok tt, w)
    | Throw e => (Throw e, w)
    end.
Proof.
  unfold checkAuth.
  change (and_then (isAuthRequired env) (js_not (isAuthenticated env)))
    with (session_lost env).
  unfold mbind at 1, M_bind at 1, bind at 1.
  rewrite session_lost_run.
  destruct (result_of (session_lost env) w) as [[]|e]; [|done|done].
  js_unfold. simpl. by rewrite <- !app_assoc.
Qed.

Lemma handleStorageChange_run (env : Env) (key : option string) (w : World) :
  concerns_session key →
  handleStorageChange env key w
  = checkAuth env
      (logged [ConsoleDebug "[auth-guard]"
                 "Storage event detected, checking auth state"] w).
Proof.
  intros Hkey. unfold handleStorageChange.
  assert (bool_decide (key = Some "meilisearch-ui-auth")
          || bool_decide (key = None) = true) as ->.
  { apply orb_true_iff. destruct Hkey as [->| ->];
      [left | right]; by apply bool_decide_eq_true_2. }
  by js_unfold.
Qed.

Lemma handleStorageChange_other (env : Env) (key : string) (w : World) :
  key ≠ AUTH_SESSION_KEY →
  handleStorageChange env (Some key) w = (Ok tt, w).
Proof.
  intros Hkey. unfold handleStorageChange.
  rewrite (bool_decide_eq_false_2 (Some key = Some "meilisearch-ui-auth"))
    by (unfold AUTH_SESSION_KEY in Hkey; congruence).
  by rewrite (bool_decide_eq_false_2 (Some key = None)).
Qed.

(** Console output does not change what the validity test reads. *)
Lemma session_lost_logged (env : Env) (es : list Effect) (w : World) :
  result_of (session_lost env) (logged es w) = result_of (session_lost env) w.
Proof.
  unfold session_lost, and_then, js_not, isAuthenticated, result_of.
  destruct (isAuthRequired env); simpl; [|done].
  js_unfold. simpl. by destruct (sessionStorage w).
Qed.

(** The effect of a mount that does not skip: the check, then one interval
    of 1000 ms and one listener, registered under fresh handles. *)
Lemma effect_armed (env : Env) (sub : Subscription) (w w1 : World) :
  checkAuth env w = (Ok tt, w1) →
  effect env false sub w
  = (Ok (MkSubscription (Some (next_handle w1))
                        (Some (Pos.succ (next_handle w1)))),
     MkWorld (sessionStorage w1) (location_search w1)
             (<[next_handle w1 := 1000]> (intervals w1))
             (storage_listeners w1 ++ [Pos.succ (next_handle w1)])
             (Pos.succ (Pos.succ (next_handle w1))) (trace w1)).
Proof.
  intros Hcheck. unfold effect.
  unfold mbind at 1, M_bind at 1, bind at 1. by rewrite Hcheck.
Qed.

Lemma effect_throws (env : Env) (sub : Subscription) (w w1 : World) e :
  checkAuth env w = (Throw e, w1) →
  effect env false sub w = (Throw e, w1).
Proof.
  intros Hcheck. unfold effect.
  unfold mbind at 1, M_bind at 1, bind at 1. by rewrite Hcheck.
Qed.

(** C1. The guard's three triggers -- the check on mount, the interval
    callback, and the storage listener for an event on the session key or
    a null key -- all run [checkAuth], which evaluates
    [isAuthRequired() && !isAuthenticated()].  When that is true, the trigger
    sets the store's authenticated flag to false and then asks the router to
    replace the current entry with ["/login"]; when it is false, the trigger
    makes no store update and no navigation (the check itself leaves the
    world as it is; the listener has only written its console line). *)
Theorem guard_validity_check (env : Env) (w : World) :
  (result_of (session_lost env) w = Ok true →
     checkAuth env w = (Ok tt, logged tripped w)
     ∧ onInterval env w = (Ok tt, logged tripped w)
     ∧ (∀ key, concerns_session key →
          handleStorageChange env key w
          = (Ok tt,
             logged (ConsoleDebug "[auth-guard]"
                       "Storage event detected, checking auth state"
                     :: tripped) w))
     ∧ trace (world_after (useAuthGuard env false) w)
       = (trace w ++ tripped)%list)
  ∧ (result_of (session_lost env) w = Ok false →
     checkAuth env w = (Ok tt, w)
     ∧ onInterval env w = (Ok tt, w)
     ∧ (∀ key, concerns_session key →
          handleStorageChange env key w
          = (Ok tt,
             logged [ConsoleDebug "[auth-guard]"
                       "Storage event detected, checking auth state"] w))
     ∧ trace (world_after (useAuthGuard env false) w) = trace w).
Proof.
  split; intros Hlost.
  - assert (Hcheck : checkAuth env w = (Ok tt, logged tripped w))
      by (by rewrite checkAuth_run, Hlost).
    split; [done|]. split; [done|]. split.
    + intros key Hkey. rewrite (handleStorageChange_run env key w Hkey).
      rewrite checkAuth_run, session_lost_logged, Hlost.
      by rewrite logged_logged.
    + unfold useAuthGuard, world_after.
      by rewrite (effect_armed env unmounted w _ Hcheck).
  - assert (Hcheck : checkAuth env w = (Ok tt, w))
      by (by rewrite checkAuth_run, Hlost).
    split; [done|]. split; [done|]. split.
    + intros key Hkey. rewrite (handleStorageChange_run env key w Hkey).
      by rewrite checkAuth_run, session_lost_logged, Hlost.
    + unfold useAuthGuard, world_after.
      by rewrite (effect_armed env unmounted w _ Hcheck).
Qed.


Lemma run_quiet (env : Env) (events : list Loop.Event) (w : World) :
  intervals w = ∅ → storage_listeners w = [] → Loop.run env events w = w.
Proof.
  intros Hi Hl. unfold Loop.run.
  induction events as [|e events IH]; [done|].
  simpl. assert (Loop.deliver env e w = w) as ->; [|done].
  destruct e as [h|key]; simpl.
  - by rewrite Hi, lookup_empty.
  - by rewrite Hl.
Qed.

Lemma mount_on_login (env : Env) (w : World) :
  ∃ es : list Effect,
    world_after (AuthGuard.mount env "/login") w = logged es w
    ∧ Forall (λ e, ∀ opts, e ≠ Navigate opts) es.
Proof.
  unfold AuthGuard.mount, AuthGuard.render, AuthGuard.effect, useAuthGuard,
    effect, AuthGuard.isLoginPage, world_after.
  simpl. destruct (isAuthRequired env) eqn:Hreq; simpl.
  - unfold mbind, M_bind, bind, mret, M_ret, ret.
    pose proof (isAuthenticated_pure env w) as Hpure.
    unfold world_after in Hpure.
    destruct (isAuthenticated env w) as [[b|e] w'] eqn:Hrun;
      simpl in Hpure; subst w'.
    + exists [SetAuthenticated b]. rewrite andb_false_r. js_unfold. simpl.
      split; [done|]. by repeat constructor.
    + exists []. rewrite logged_nil. by split.
  - exists [SetAuthenticated true]. js_unfold. simpl.
    split; [done|]. by repeat constructor.
Qed.

(** C9. The hook's effect run with the skip flag set returns at once: it
    leaves the world exactly as it was (no navigation, no interval, no
    listener, no output) and returns no cleanup, so unmounting does nothing
    either.  [AuthGuard] passes the flag exactly on ["/login"], and mounted
    there it requests no navigation and registers nothing.  From a page with
    no interval and no listener, mounting the hook with the flag set and
    then delivering any sequence of ticks and storage events changes
    nothing. *)
Theorem skipped_guard_is_inert (env : Env) (w : World) (sub : Subscription) :
  effect env true sub w = (Ok (MkSubscription (intervalRef sub) None), w)
  ∧ useAuthGuard env true w = (Ok unmounted, w)
  ∧ run_cleanup (MkSubscription (intervalRef sub) None) w
    = (Ok (MkSubscription (intervalRef sub) None), w)
  ∧ AuthGuard.isLoginPage "/login" = true
  ∧ (∃ es : list Effect,
       world_after (AuthGuard.mount env "/login") w = logged es w
       ∧ Forall (λ e, ∀ opts, e ≠ Navigate opts) es)
  ∧ (intervals w = ∅ → storage_listeners w = [] →
     ∀ events : list Loop.Event,
       Loop.run env events (world_after (useAuthGuard env true) w) = w).
Proof.
  split; [done|]. split; [done|]. split; [done|]. split; [done|].
  split; [apply mount_on_login|].
  intros Hi Hl events. by apply run_quiet.
Qed.

(** C6, as the code has it.  With authentication required: when reading
    session storage throws, [isAuthenticated] does not return false but
    lets the exception through (so it does not return true either), and so
    do the check on mount, the interval callback and the storage listener,
    none of which updates the store or navigates; when the storage is
    readable and holds no entry under the session key, [isAuthenticated]
    returns false and the check trips.  With authentication not required,
    storage is never read: [isAuthenticated] returns true and the check
    returns without effect, even on a storage that cannot be read. *)
Theorem storage_failure_propagates (env : Env) (w : World) :
  (isAuthRequired env = true → sessionStorage w = Denied →
     isAuthenticated env w = (Throw SecurityError, w)
     ∧ useAuthGuard env false w = (Throw SecurityError, w)
     ∧ onInterval env w = (Throw SecurityError, w)
     ∧ ∀ key, concerns_session key →
         handleStorageChange env key w
         = (Throw SecurityError,
            logged [ConsoleDebug "[auth-guard]"
                      "Storage event detected, checking auth state"] w))
  ∧ (isAuthRequired env = true →
     ∀ items, sessionStorage w = Available items →
       items !! AUTH_SESSION_KEY = None →
       isAuthenticated env w = (Ok false, w)
       ∧ checkAuth env w = (Ok tt, logged tripped w))
  ∧ (isAuthRequired env = false →
     isAuthenticated env w = (Ok true, w)
     ∧ checkAuth env w = (Ok tt, w)).
Proof.
  split; [|split].
  - intros Hreq Hs.
    pose proof (isAuthenticated_denied env w Hreq Hs) as Hauth.
    assert (Hlost : ∀ es, result_of (session_lost env) (logged es w)
                          = Throw SecurityError).
    { intros es. rewrite session_lost_logged.
      unfold session_lost, and_then, js_not, result_of. rewrite Hreq.
      unfold mbind, M_bind, bind. by rewrite Hauth. }
    assert (Hcheck : checkAuth env w = (Throw SecurityError, w)).
    { rewrite checkAuth_run. rewrite <- (logged_nil w) at 1.
      by rewrite Hlost. }
    split; [done|]. split; [by apply effect_throws|]. split; [done|].
    intros key Hkey. rewrite (handleStorageChange_run env key w Hkey).
    by rewrite checkAuth_run, Hlost.
  - intros Hreq items Hs Hflag.
    pose proof (isAuthenticated_available env w items Hreq Hs) as Hauth.
    rewrite bool_decide_eq_false_2 in Hauth by congruence.
    split; [done|]. rewrite checkAuth_run.
    assert (result_of (session_lost env) w = Ok true) as ->; [|done].
    apply session_lost_true. split; [done|].
    unfold result_of. by rewrite Hauth.
  - intros Hreq. split; [by apply isAuthenticated_open|].
    rewrite checkAuth_run.
    assert (result_of (session_lost env) w = Ok false) as ->; [|done].
    apply session_lost_false. by left.
Qed.

End GuardFacts.

(** ** The route entry gate *)

Module RootFacts.
Import Js Auth AuthFacts.

(** [beforeLoad] by cases on the two tests it makes. *)
Lemma beforeLoad_run (env : Env) (pathname : string) (w : World) :
  Root.beforeLoad env pathname w
  = match result_of (session_lost env) w with
    | Ok true =>
        if pathname =? "/login" then (Ok tt, w)
        else (Throw (Redirected (MkRedirect "/login" (Some pathname))),
              logged [ConsoleDebug "[auth]"
                        "User not authenticated, redirecting to login"] w)
    | Ok false =>
        if pathname =? "/login" then
          match result_of (isAuthenticated env) w with
          | Ok true =>
              (Throw (Redirected (MkRedirect "/" None)),
               logged [ConsoleDebug "[auth]"
                         "User already authenticated, redirecting to home"] w)
          | Ok false => (Ok tt, w)
          | Throw e => (Throw e, w)
          end
        else (Ok tt, w)
    | Throw e => (Throw e, w)
    end.
Proof.
  unfold Root.beforeLoad.
  change (and_then (isAuthRequired env) (js_not (isAuthenticated env)))
    with (session_lost env).
  unfold mbind at 1, M_bind at 1, bind at 1.
  rewrite session_lost_run.
  destruct (result_of (session_lost env) w) as [[]|e]; [| |done].
  - destruct (pathname =? "/login"); [done|]. by js_unfold.
  - destruct (pathname =? "/login"); [|done].
    unfold and_then, mbind, M_bind, bind, result_of.
    pose proof (isAuthenticated_pure env w) as Hpure.
    unfold world_after in Hpure.
    destruct (isAuthenticated env w) as [[[]|e] w']; simpl in *; subst w';
      [|done|done].
    by js_unfold.
Qed.

(** C5. For a target other than ["/login"], when
    [isAuthRequired() && !isAuthenticated()] holds, [beforeLoad] throws the
    router's redirect to ["/login"] -- which aborts the navigation -- with
    the requested path as its [redirect] search parameter. *)
Theorem gate_redirects_to_login (env : Env) (pathname : string) (w : World) :
  pathname ≠ "/login" →
  result_of (session_lost env) w = Ok true →
  Root.beforeLoad env pathname w
  = (Throw (Redirected (MkRedirect "/login" (Some pathname))),
     logged [ConsoleDebug "[auth]"
               "User not authenticated, redirecting to login"] w).
Proof.
  intros Hpath Hlost. rewrite beforeLoad_run, Hlost.
  apply String.eqb_neq in Hpath. by rewrite Hpath.
Qed.

(** C4, as the code has it.  For the target ["/login"]: when
    [isAuthRequired() && !isAuthenticated()] holds the navigation is allowed
    and nothing is done; when it does not hold (the session is authenticated,
    or no credentials are configured) [beforeLoad] redirects to ["/"]; and
    whatever the state, the only redirect it can issue for ["/login"] is
    that one, never one back to ["/login"]. *)
Theorem gate_on_login_surface (env : Env) (w : World) :
  (result_of (session_lost env) w = Ok true →
     Root.beforeLoad env "/login" w = (Ok tt, w))
  ∧ (result_of (session_lost env) w = Ok false →
     Root.beforeLoad env "/login" w
     = (Throw (Redirected (MkRedirect "/" None)),
        logged [ConsoleDebug "[auth]"
                  "User already authenticated, redirecting to home"] w))
  ∧ (∀ r, result_of (Root.beforeLoad env "/login") w = Throw (Redirected r) →
       r = MkRedirect "/" None).
Proof.
  split; [|split].
  - intros Hlost. by rewrite beforeLoad_run, Hlost.
  - intros Hlost. rewrite beforeLoad_run, Hlost. simpl.
    assert (result_of (isAuthenticated env) w = Ok true) as ->; [|done].
    apply session_lost_false in Hlost as [Hreq|Hauth]; [|done].
    unfold result_of. by rewrite isAuthenticated_open.
  - intros r. unfold result_of at 1. rewrite beforeLoad_run. simpl.
    destruct (result_of (session_lost env) w) as [[]|e] eqn:Hlost; simpl.
    + discriminate.
    + destruct (result_of (isAuthenticated env) w) as [[]|e] eqn:Hauth;
        simpl; try discriminate.
      * congruence.
      * intros [= ->]. by apply isAuthenticated_throws in Hauth.
    + intros [= ->]. by apply session_lost_throws in Hlost.
Qed.

End RootFacts.

(** ** The post-login redirect target *)

Module RedirectFacts.
Import Js Auth.

Lemma prefix_refl (s : string) : String.prefix s s = true.
Proof.
  induction s as [|c s IH]; [done|].
  simpl. by destruct (ascii_dec c c).
Qed.

(** X24. [getRedirectUrl] always returns, without touching the world, a URL
    that starts with the application's base URL ([BASE_URL], or ["/"] when
    that is empty or absent).  A [redirect] parameter that does not start
    with the base URL is rejected and the base URL is returned instead, as
    it is when the parameter is missing or empty; the only other possible
    result is the supplied parameter itself. *)
Theorem getRedirectUrl_within_base (env : Env) (w : World) :
  ∃ url : string,
    getRedirectUrl env w = (Ok url, w)
    ∧ String.prefix (js_or (BASE_URL env) "/") url = true
    ∧ (∀ target,
         params_get (location_search w) "redirect" = Some target →
         String.prefix (js_or (BASE_URL env) "/") target = false →
         url = js_or (BASE_URL env) "/")
    ∧ (blank (params_get (location_search w) "redirect") →
       url = js_or (BASE_URL env) "/")
    ∧ (url = js_or (BASE_URL env) "/"
       ∨ params_get (location_search w) "redirect" = Some url).
Proof.
  unfold getRedirectUrl, search_param, mbind, M_bind, bind, mret, M_ret, ret.
  destruct (params_get (location_search w) "redirect") as [target|] eqn:Hget.
  - destruct (negb (target =? "")) eqn:Hne; simpl.
    + destruct (String.prefix (js_or (BASE_URL env) "/") target) eqn:Hpre.
      * exists target. repeat split; try done.
        -- intros t [= <-]. congruence.
        -- intros [?|[= ->]]; [done|]. by rewrite String.eqb_refl in Hne.
        -- by right.
      * exists (js_or (BASE_URL env) "/").
        repeat split; try done; [apply prefix_refl | by left].
    + exists (js_or (BASE_URL env) "/").
      repeat split; try done; [apply prefix_refl | by left].
  - exists (js_or (BASE_URL env) "/").
    repeat split; try done; [apply prefix_refl | by left].
Qed.

End RedirectFacts.

(** ** Where the code departs from a stated property *)

Module Counterexample.
Import Js Auth Sample.

(** C4 as stated fails: a signed-in user who navigates to ["/login"] is
    redirected to ["/"], and so is any user when no credentials are
    configured. *)
Lemma gate_redirects_away_from_login :
  result_of (Root.beforeLoad env_admin "/login") signed_in
  = Throw (Redirected (MkRedirect "/" None))
  ∧ result_of (Root.beforeLoad env_open "/login") fresh
    = Throw (Redirected (MkRedirect "/" None))
  ∧ ¬ (∀ (env : Env) (w : World),
         result_of (Root.beforeLoad env "/login") w = Ok tt).
Proof.
  split; [reflexivity|]. split; [reflexivity|].
  intros Hall. specialize (Hall env_admin signed_in). discriminate Hall.
Qed.

(** C6 as stated fails: with credentials configured and a session storage
    that cannot be read, [isAuthenticated] throws instead of returning
    false, and the exception leaves each of the guard's three triggers. *)
Lemma storage_failure_is_thrown :
  isAuthRequired env_admin = true
  ∧ sessionStorage blocked = Denied
  ∧ isAuthenticated env_admin blocked = (Throw SecurityError, blocked)
  ∧ result_of (isAuthenticated env_admin) blocked ≠ Ok false
  ∧ result_of (Guard.useAuthGuard env_admin false) blocked
    = Throw SecurityError
  ∧ result_of (Guard.onInterval env_admin) blocked = Throw SecurityError
  ∧ result_of (Guard.handleStorageChange env_admin None) blocked
    = Throw SecurityError.
Proof. repeat split; (reflexivity || discriminate). Qed.

(** C3 as stated fails: where no digest can be computed (a page served
    without [crypto.subtle]), [login] with the configured credentials does
    not return true and [login] with a wrong password does not return
    false; both reject, and nothing is stored. *)
Lemma login_rejects_without_digest :
  login env_admin no_digest "admin" "secret" fresh
  = (Throw DigestError, fresh)
  ∧ result_of (login env_admin no_digest "admin" "secret") fresh ≠ Ok true
  ∧ stored (sessionStorage
              (world_after (login env_admin no_digest "admin" "secret") fresh))
      AUTH_SESSION_KEY = None
  ∧ result_of (login env_admin no_digest "admin" "wrong") fresh ≠ Ok false
  ∧ ¬ (∀ hashPassword : string → Result string,
         result_of (login env_admin hashPassword "admin" "secret") fresh
         = Ok true).
Proof.
  split; [reflexivity|]. split; [discriminate|]. split; [reflexivity|].
  split; [discriminate|].
  intros Hall. specialize (Hall no_digest). discriminate Hall.
Qed.

(** C7.  The code does not reject every foreign return URL.  With the base
    URL ["/"] (also the default when [BASE_URL] is unset) a return URL that
    names another host without a scheme is returned unchanged, and under
    the base URL ["/ui/"] so is a return URL that climbs out of the base
    path: each starts with the base URL, which is all the code tests. *)
Theorem getRedirectUrl_keeps_foreign_targets :
  getRedirectUrl env_admin (returning "//evil.example/phish")
  = (Ok "//evil.example/phish", returning "//evil.example/phish")
  ∧ getRedirectUrl env_open (returning "//evil.example/phish")
    = (Ok "//evil.example/phish", returning "//evil.example/phish")
  ∧ getRedirectUrl Sample2.env_ui (returning "/ui/../../admin")
    = (Ok "/ui/../../admin", returning "/ui/../../admin")
  ∧ result_of (getRedirectUrl env_admin) (returning "//evil.example/phish")
    ≠ Ok (js_or (BASE_URL env_admin) "/").
Proof. repeat split; (reflexivity || discriminate). Qed.

End Counterexample.

(** ** A session, end to end *)

Module Scenario.
Import Js Auth Sample.

(** The page after [login("admin", "secret")] and a mount of the guard. *)
Example armed_after_login :
  result_of (login env_admin tag_digest "admin" "secret";;
             Guard.useAuthGuard env_admin false) fresh
  = Ok (Guard.MkSubscription (Some 1%positive) (Some 2%positive))
  ∧ trace (world_after (login env_admin tag_digest "admin" "secret";;
                        Guard.useAuthGuard env_admin false) fresh)
    = [ConsoleDebug "[auth]" "Login successful"].
Proof. by split. Qed.

(** The session key is deleted behind the application's back; the next tick
    of the guard's interval sets the store's flag to false and replaces the
    current page with the login page. *)
Example tick_after_tampering :
  trace (Loop.deliver env_admin (Loop.Tick 1)
           (with_storage (Available ∅)
              (world_after (login env_admin tag_digest "admin" "secret";;
                            Guard.useAuthGuard env_admin false) fresh)))
  = [ConsoleDebug "[auth]" "Login successful";
     ConsoleDebug "[auth-guard]" "Session lost, redirecting to login";
     SetAuthenticated false;
     Navigate (MkNavigate "/login" true)].
Proof. reflexivity. Qed.

(** While the session lasts, ticks and storage events do nothing beyond the
    listener's console line. *)
Example events_while_signed_in :
  trace (Loop.run env_admin
           [Loop.Tick 1; Loop.StorageChanged (Some "theme"); Loop.Tick 1;
            Loop.StorageChanged None]
           (world_after (Guard.useAuthGuard env_admin false) signed_in))
  = [ConsoleDebug "[auth-guard]"
       "Storage event detected, checking auth state"].
Proof. reflexivity. Qed.

(** Unmounting removes the interval and the listener again. *)
Example unmount_clears :
  world_after (sub ← Guard.useAuthGuard env_admin false;
               Guard.run_cleanup sub) signed_in
  = MkWorld (sessionStorage signed_in) [] ∅ [] 3%positive [].
Proof. reflexivity. Qed.

(** Served without [crypto.subtle], the form cannot log anyone in: the
    digest's failure is caught, shown as the generic error, and the store's
    flag is set to false. *)
Example submit_without_digest :
  Ui.state_after
    (LoginRoute.handleSubmit env_admin no_digest (λ key, key)
       (LoginRoute.MkLoginForm "admin" "secret"))
    (LoginRoute.MkPageState false None []) fresh
  = LoginRoute.MkPageState false (Some "login_error") [DigestError]
  ∧ Ui.page_world_after
      (LoginRoute.handleSubmit env_admin no_digest (λ key, key)
         (LoginRoute.MkLoginForm "admin" "secret"))
      (LoginRoute.MkPageState false None []) fresh
    = logged [SetAuthenticated false] fresh.
Proof. by split. Qed.

(** A return URL under the base URL is kept. *)
Example redirect_kept :
  result_of (getRedirectUrl env_admin) (returning "/ins/0/index")
  = Ok "/ins/0/index".
Proof. reflexivity. Qed.

Example trailing_slash :
  strip_trailing_slash "/ui/" = "/ui" ∧ strip_trailing_slash "/ui" = "/ui".
Proof. by split. Qed.

End Scenario.

(** ** More on login, logout and session validation *)

Module AuthMore.
Import Js Auth Guard Lifecycle AuthFacts LoginFacts.

Lemma credentials_match (username : string) (expectedUsername : option string)
    (provided expected : string) :
  bool_decide (Some username = expectedUsername) && (provided =? expected)
  = true
  ↔ Some username = expectedUsername ∧ provided = expected.
Proof. by rewrite andb_true_iff, bool_decide_eq_true, String.eqb_eq. Qed.

(** X1. With authentication required, [login] returns true exactly when the
    username is the configured one, both digests are computed and equal,
    and the session storage can be written.  When both digests are computed
    and the username or the digest differs, it returns false, in every
    world, after one console line.  When a digest cannot be computed it
    returns neither: it rejects with the digest's failure, the world
    untouched. *)
Theorem login_true_iff (env : Env) (hashPassword : string → Result string)
    (username password : string) (w : World) :
  isAuthRequired env = true →
  (result_of (login env hashPassword username password) w = Ok true
   ↔ Some username = VITE_AUTH_USERNAME env
     ∧ (∃ digest,
          hashPassword password = Ok digest
          ∧ hashPassword (text (VITE_AUTH_PASSWORD env)) = Ok digest)
     ∧ ∃ items, sessionStorage w = Available items)
  ∧ (∀ provided expected,
       hashPassword password = Ok provided →
       hashPassword (text (VITE_AUTH_PASSWORD env)) = Ok expected →
       ¬ (Some username = VITE_AUTH_USERNAME env ∧ provided = expected) →
       login env hashPassword username password w
       = (Ok false,
          logged [ConsoleDebug "[auth]" "Login failed - invalid credentials"]
            w))
  ∧ (∀ e,
       promise_all (hashPassword password)
         (hashPassword (text (VITE_AUTH_PASSWORD env))) = Throw e →
       login env hashPassword username password w = (Throw e, w)).
Proof.
  intros Hreq. split; [|split].
  - unfold result_of. rewrite login_required_run by done.
    destruct (hashPassword password) as [provided|e] eqn:Hp;
      destruct (hashPassword (text (VITE_AUTH_PASSWORD env)))
        as [expected|e'] eqn:He; simpl;
      try (split; [done | by intros (_ & (d & ? & ?) & _)]).
    pose proof (credentials_match username (VITE_AUTH_USERNAME env)
                  provided expected) as Hm.
    destruct (bool_decide _ && _) eqn:Hb.
    + destruct (proj1 Hm eq_refl) as [Hu ->].
      destruct (sessionStorage w) as [items|] eqn:Hs; simpl.
      * split; [|done]. intros _. split; [done|]. by eauto.
      * split; [done|]. by intros (_ & _ & items & ?).
    + simpl. split; [done|]. intros (Hu & (d & [= ->] & [= ->]) & _).
      by destruct (proj2 Hm (conj Hu eq_refl)).
  - intros provided expected Hp He Hno.
    apply (login_rejected env hashPassword username password provided
             expected); try done.
    destruct (bool_decide _ && _) eqn:Hb; [|done].
    destruct Hno. by apply credentials_match.
  - intros e Hfail. by apply login_digest_fails.
Qed.

(** X2. With no credentials configured, [login] accepts every username and
    password: on a writable storage it stores the marker and returns true
    without console output; on a storage that cannot be accessed it
    throws. *)
Theorem login_open_access (env : Env) (hashPassword : string → Result string)
    (username password : string) (w : World) :
  isAuthRequired env = false →
  (∀ items, sessionStorage w = Available items →
     login env hashPassword username password w
     = (Ok true,
        with_storage
          (Available (<[AUTH_SESSION_KEY := "authenticated"]> items)) w))
  ∧ (sessionStorage w = Denied →
     login env hashPassword username password w = (Throw SecurityError, w)).
Proof.
  intros Hreq. unfold login. rewrite Hreq. simpl. js_unfold.
  split; [intros items Hs | intros Hs]; by rewrite Hs.
Qed.

(** A [login] that throws has changed nothing. *)
Lemma login_throws_untouched (env : Env)
    (hashPassword : string → Result string) (username password : string)
    (w w1 : World) (e : Exn) :
  login env hashPassword username password w = (Throw e, w1) → w1 = w.
Proof.
  destruct (isAuthRequired env) eqn:Hreq.
  - rewrite login_required_run by done.
    destruct (promise_all _ _) as [[provided expected]|e']; [|congruence].
    destruct (bool_decide _ && _); [|done].
    destruct (sessionStorage w); [done | congruence].
  - unfold login. rewrite Hreq. simpl. js_unfold.
    destruct (sessionStorage w); [done | congruence].
Qed.

Lemma same_page_refl (w : World) : same_page w w.
Proof. by repeat split. Qed.

Lemma same_page_logged (es : list Effect) (w w' : World) :
  same_page w w' → same_page w (logged es w').
Proof. done. Qed.

Lemma same_page_trans (w1 w2 w3 : World) :
  same_page w1 w2 → same_page w2 w3 → same_page w1 w3.
Proof.
  intros (? & ? & ? & ? & Hd & Hk) (? & ? & ? & ? & Hd' & Hk').
  repeat split; try congruence; try tauto.
  intros key Hkey. by rewrite Hk', Hk.
Qed.

Lemma same_page_setItem (value : string) (w : World) :
  same_page w (world_after (setItem AUTH_SESSION_KEY value) w).
Proof.
  unfold world_after, setItem.
  destruct (sessionStorage w) as [items|] eqn:Hs; simpl;
    [|apply same_page_refl].
  repeat split; simpl; try done; rewrite ?Hs; try done.
  intros key Hkey. simpl. by rewrite lookup_insert_ne.
Qed.

Lemma same_page_removeItem (w : World) :
  same_page w (world_after (removeItem AUTH_SESSION_KEY) w).
Proof.
  unfold world_after, removeItem.
  destruct (sessionStorage w) as [items|] eqn:Hs; simpl;
    [|apply same_page_refl].
  repeat split; simpl; try done; rewrite ?Hs; try done.
  intros key Hkey. simpl. by rewrite lookup_delete_ne.
Qed.

Lemma same_page_logout (w : World) : same_page w (world_after logout w).
Proof.
  pose proof (same_page_removeItem w) as Hrm.
  unfold logout, world_after in *.
  unfold mbind, M_bind, bind, console_debug, emit, removeItem in *.
  destruct (sessionStorage w) as [items|] eqn:Hs; simpl in *;
    [apply same_page_logged; exact Hrm | apply same_page_refl].
Qed.

Lemma same_page_login (env : Env) (hashPassword : string → Result string)
    (username password : string) (w : World) :
  same_page w (world_after (login env hashPassword username password) w).
Proof.
  pose proof (same_page_setItem "authenticated" w) as Hset.
  unfold world_after in *.
  destruct (isAuthRequired env) eqn:Hreq.
  - rewrite login_required_run by done.
    destruct (promise_all _ _) as [[provided expected]|e];
      [|apply same_page_refl].
    destruct (bool_decide _ && _);
      [|apply same_page_logged, same_page_refl].
    unfold setItem in Hset.
    destruct (sessionStorage w) as [items|] eqn:Hs; simpl in *;
      [apply same_page_logged; exact Hset | apply same_page_refl].
  - unfold login. rewrite Hreq. simpl.
    unfold mbind, M_bind, bind, mret, M_ret, ret, setItem in *.
    destruct (sessionStorage w) as [items|] eqn:Hs; simpl in *;
      [exact Hset | apply same_page_refl].
Qed.

Lemma same_page_validateSession (env : Env) (w : World) :
  same_page w (world_after (validateSession env) w).
Proof.
  unfold validateSession, world_after.
  destruct (negb (isAuthRequired env)) eqn:Hreq; [apply same_page_refl|].
  apply negb_false_iff in Hreq.
  unfold mbind at 1, M_bind at 1, bind at 1.
  destruct (sessionStorage w) as [items|] eqn:Hs.
  - rewrite (isAuthenticated_available env w items Hreq Hs).
    case_bool_decide; simpl; [apply same_page_refl|].
    pose proof (same_page_logout
                  (logged [ConsoleDebug "[auth-guard]"
                             "Session validation failed"] w)) as Hout.
    unfold world_after in Hout.
    unfold mbind, M_bind, bind, mret, M_ret, ret, console_debug, emit.
    destruct (logout _) as [[[]|e] w'] eqn:Hrun; simpl in *; exact Hout.
  - rewrite (isAuthenticated_denied env w Hreq Hs). apply same_page_refl.
Qed.

(** X3. [login], [logout] and [validateSession] touch nothing but the entry
    under the session key and the trace: every other entry of the session
    storage, the query string, the intervals and the listeners are as
    before. *)
Theorem session_operations_frame (env : Env)
    (hashPassword : string → Result string) (username password : string)
    (w : World) :
  same_page w (world_after (login env hashPassword username password) w)
  ∧ same_page w (world_after logout w)
  ∧ same_page w (world_after (validateSession env) w).
Proof.
  split; [apply same_page_login|].
  split; [apply same_page_logout | apply same_page_validateSession].
Qed.

(** X4. [validateSession] gives the verdict [isAuthenticated] gives, value
    or exception alike, and the verdict is the same after it as before: it
    never ends a valid session, and what it deletes was not the marker. *)
Theorem validateSession_agrees (env : Env) (w : World) :
  result_of (validateSession env) w = result_of (isAuthenticated env) w
  ∧ result_of (isAuthenticated env) (world_after (validateSession env) w)
    = result_of (isAuthenticated env) w.
Proof.
  unfold validateSession, result_of, world_after.
  destruct (isAuthRequired env) eqn:Hreq; simpl.
  - unfold mbind, M_bind, bind.
    destruct (sessionStorage w) as [items|] eqn:Hs.
    + rewrite (isAuthenticated_available env w items Hreq Hs).
      case_bool_decide as Hflag; simpl.
      * split; [done|].
        rewrite (isAuthenticated_available env w items Hreq Hs).
        by rewrite bool_decide_eq_true_2.
      * unfold logout. js_unfold. simpl. rewrite Hs. simpl. split; [done|].
        erewrite isAuthenticated_available by (try done; reflexivity).
        simpl. rewrite bool_decide_eq_false_2; [done|].
        by rewrite lookup_delete_eq.
    + rewrite (isAuthenticated_denied env w Hreq Hs). simpl.
      by rewrite (isAuthenticated_denied env w Hreq Hs).
  - by rewrite (isAuthenticated_open env w Hreq).
Qed.

End AuthMore.

(** ** More on the route entry gate *)

Module GateMore.
Import Js Auth Guard Lifecycle AuthFacts GuardFacts RootFacts.

Lemma logged_inv (es : list Effect) (w : World) : logged es w = w → es = [].
Proof.
  intros H. apply (f_equal trace) in H. simpl in H.
  rewrite <- (app_nil_r (trace w)) in H at 2. by apply app_inv_head in H.
Qed.

(** X5. Whatever the target and the state, [beforeLoad] either allows the
    navigation, throws the storage's exception, redirects a target other
    than ["/login"] to ["/login"] with that target as return path, or
    redirects ["/login"] to ["/"].  It never writes session storage, never
    updates the store and never navigates: it leaves the world as it was
    but for at most one line of console output. *)
Theorem gate_outcomes (env : Env) (pathname : string) (w : World) :
  (result_of (Root.beforeLoad env pathname) w = Ok tt
   ∨ result_of (Root.beforeLoad env pathname) w = Throw SecurityError
   ∨ (pathname ≠ "/login"
      ∧ result_of (Root.beforeLoad env pathname) w
        = Throw (Redirected (MkRedirect "/login" (Some pathname))))
   ∨ (pathname = "/login"
      ∧ result_of (Root.beforeLoad env pathname) w
        = Throw (Redirected (MkRedirect "/" None))))
  ∧ ∃ es : list Effect,
      world_after (Root.beforeLoad env pathname) w = logged es w
      ∧ forallb is_console es = true
      ∧ (List.length es ≤ 1)%nat.
Proof.
  unfold result_of, world_after. rewrite beforeLoad_run.
  destruct (result_of (session_lost env) w) as [[]|e] eqn:Hlost.
  - destruct (pathname =? "/login") eqn:Hp; simpl.
    + split; [by left|]. exists []. rewrite logged_nil. repeat split; simpl; lia.
    + apply String.eqb_neq in Hp. split; [by right; right; left|].
      eexists [_]. split; [done|]. split; [done | simpl; lia].
  - destruct (pathname =? "/login") eqn:Hp; simpl.
    + apply String.eqb_eq in Hp.
      destruct (result_of (isAuthenticated env) w) as [[]|e] eqn:Hauth; simpl.
      * split; [by right; right; right|].
        eexists [_]. split; [done|]. split; [done | simpl; lia].
      * split; [by left|]. exists []. rewrite logged_nil. repeat split; simpl; lia.
      * apply isAuthenticated_throws in Hauth as ->.
        split; [by right; left|]. exists []. rewrite logged_nil. repeat split; simpl; lia.
    + split; [by left|]. exists []. rewrite logged_nil. repeat split; simpl; lia.
  - apply session_lost_throws in Hlost as ->. simpl.
    split; [by right; left|]. exists []. rewrite logged_nil. repeat split; simpl; lia.
Qed.

(** X6. A redirect issued by the gate is never redirected again: the gate,
    run for the redirect's target in the world it left, allows it. *)
Theorem gate_redirect_lands (env : Env) (pathname : string) (w : World)
    (r : RedirectOptions) :
  result_of (Root.beforeLoad env pathname) w = Throw (Redirected r) →
  Root.beforeLoad env (redirect_to r)
    (world_after (Root.beforeLoad env pathname) w)
  = (Ok tt, world_after (Root.beforeLoad env pathname) w).
Proof.
  unfold result_of, world_after. rewrite (beforeLoad_run env pathname).
  destruct (result_of (session_lost env) w) as [[]|e] eqn:Hlost.
  - destruct (pathname =? "/login") eqn:Hp; simpl; [done|].
    intros [= <-]. simpl.
    by rewrite beforeLoad_run, session_lost_logged, Hlost.
  - destruct (pathname =? "/login") eqn:Hp; simpl; [|done].
    destruct (result_of (isAuthenticated env) w) as [[]|e] eqn:Hauth; simpl.
    + intros [= <-]. simpl.
      by rewrite beforeLoad_run, session_lost_logged, Hlost.
    + done.
    + apply isAuthenticated_throws in Hauth as ->. done.
  - apply session_lost_throws in Hlost as ->. done.
Qed.

(** X7. With credentials configured and a session storage that cannot be
    read, the gate throws the storage's exception for every target, the
    login page included, and issues no redirect. *)
Theorem gate_on_denied_storage (env : Env) (pathname : string) (w : World) :
  isAuthRequired env = true →
  sessionStorage w = Denied →
  Root.beforeLoad env pathname w = (Throw SecurityError, w).
Proof.
  intros Hreq Hs. rewrite beforeLoad_run.
  assert (result_of (session_lost env) w = Throw SecurityError) as ->; [|done].
  unfold session_lost, and_then, js_not, result_of. rewrite Hreq.
  unfold mbind, M_bind, bind.
  by rewrite (isAuthenticated_denied env w Hreq Hs).
Qed.

(** X8. For a target other than ["/login"] the gate and the guard agree:
    the gate redirects to the login page exactly when the guard's check
    trips, and allows the navigation exactly when the check does
    nothing. *)
Theorem gate_agrees_with_guard (env : Env) (pathname : string) (w : World) :
  pathname ≠ "/login" →
  (result_of (Root.beforeLoad env pathname) w
   = Throw (Redirected (MkRedirect "/login" (Some pathname)))
   ↔ checkAuth env w = (Ok tt, logged tripped w))
  ∧ (result_of (Root.beforeLoad env pathname) w = Ok tt
     ↔ checkAuth env w = (Ok tt, w)).
Proof.
  intros Hp. apply String.eqb_neq in Hp.
  unfold result_of. rewrite beforeLoad_run, checkAuth_run, Hp.
  destruct (result_of (session_lost env) w) as [[]|e] eqn:Hlost; simpl.
  - split; split; try done.
    intros [= H]. by apply logged_inv in H.
  - split; split; try done.
    intros [= H]. symmetry in H. by apply logged_inv in H.
  - apply session_lost_throws in Hlost as ->. split; split; done.
Qed.

End GateMore.

(** ** More on the continuous guard *)

Module GuardMore.
Import Js Auth Guard Lifecycle AuthFacts GuardFacts.

Lemma check_effects_logged (env : Env) (es : list Effect) (w : World) :
  check_effects env (logged es w) = check_effects env w.
Proof. unfold check_effects. by rewrite session_lost_logged. Qed.

Lemma reaction_logged (env : Env) (key : option string) (es : list Effect)
    (w : World) :
  reaction env key (logged es w) = reaction env key w.
Proof. unfold reaction. by rewrite check_effects_logged. Qed.

Lemma checkAuth_world (env : Env) (w : World) :
  world_after (checkAuth env) w = logged (check_effects env w) w.
Proof.
  unfold world_after, check_effects. rewrite checkAuth_run.
  destruct (result_of (session_lost env) w) as [[]|e]; simpl;
    by rewrite ?logged_nil.
Qed.

Lemma handleStorageChange_world (env : Env) (key : option string) (w : World) :
  world_after (handleStorageChange env key) w = logged (reaction env key w) w.
Proof.
  unfold reaction.
  destruct (bool_decide (key = Some AUTH_SESSION_KEY)
            || bool_decide (key = None)) eqn:Hkey.
  - assert (Hc : concerns_session key).
    { apply orb_true_iff in Hkey as [H|H]; apply bool_decide_eq_true in H;
        [by left | by right]. }
    unfold world_after. rewrite (handleStorageChange_run env key w Hc).
    pose proof (checkAuth_world env
                  (logged [ConsoleDebug "[auth-guard]"
                             "Storage event detected, checking auth state"] w))
      as Hw.
    unfold world_after in Hw. rewrite Hw, check_effects_logged.
    by rewrite logged_logged.
  - unfold world_after, handleStorageChange.
    unfold AUTH_SESSION_KEY in Hkey. rewrite Hkey. simpl.
    by rewrite logged_nil.
Qed.

Lemma dispatch_world (env : Env) (key : option string)
    (listeners : list positive) (w : World) :
  Loop.dispatch (handleStorageChange env key) listeners w
  = logged (concat (replicate (List.length listeners) (reaction env key w))) w.
Proof.
  revert w. induction listeners as [|l listeners IH]; intros w; simpl.
  - by rewrite logged_nil.
  - rewrite handleStorageChange_world, IH, reaction_logged.
    by rewrite logged_logged.
Qed.

Lemma deliver_appends (env : Env) (e : Loop.Event) (w : World) :
  ∃ es : list Effect,
    Loop.deliver env e w = logged es w
    ∧ (result_of (session_lost env) w = Ok false →
       forallb is_console es = true).
Proof.
  destruct e as [h|key]; simpl.
  - destruct (intervals w !! h).
    + exists (check_effects env w). split; [apply checkAuth_world|].
      intros Hvalid. unfold check_effects. by rewrite Hvalid.
    + exists []. by rewrite logged_nil.
  - eexists. split; [apply dispatch_world|].
    intros Hvalid. unfold reaction, check_effects. rewrite Hvalid.
    induction (storage_listeners w) as [|l ls IH]; [done|].
    simpl. destruct (_ || _); simpl; exact IH.
Qed.

(** X9. Delivering timer ticks and storage events, in any number and order,
    only ever appends to the trace: the guard never writes session storage
    (it never logs the user out itself) and never adds or removes an interval
    or a listener while it runs.  As long as the session is not lost, what is
    appended is console output only: no store update and no navigation. *)
Theorem events_only_append (env : Env) (events : list Loop.Event) (w : World) :
  ∃ es : list Effect,
    Loop.run env events w = logged es w
    ∧ (result_of (session_lost env) w = Ok false →
       forallb is_console es = true).
Proof.
  unfold Loop.run. revert w.
  induction events as [|e events IH]; intros w; simpl.
  - exists []. by rewrite logged_nil.
  - destruct (deliver_appends env e w) as (es1 & -> & Hc1).
    destruct (IH (logged es1 w)) as (es2 & -> & Hc2).
    exists (es1 ++ es2)%list. rewrite logged_logged. split; [done|].
    intros Hvalid. rewrite forallb_app, Hc1 by done. simpl.
    apply Hc2. by rewrite session_lost_logged.
Qed.

(** X10. The code has no tripped state: while the session stays lost, every
    tick of a registered interval sets the store's flag to false and asks
    for the replace-navigation to ["/login"] again. *)
Theorem ticks_keep_tripping (env : Env) (h : positive) (n : nat) (w : World) :
  is_Some (intervals w !! h) →
  result_of (session_lost env) w = Ok true →
  Loop.run env (replicate n (Loop.Tick h)) w
  = logged (concat (replicate n tripped)) w.
Proof.
  intros [d Hh] Hlost. unfold Loop.run. revert w Hh Hlost.
  induction n as [|n IH]; intros w Hh Hlost; simpl.
  - by rewrite logged_nil.
  - rewrite Hh.
    pose proof (checkAuth_world env w) as Hw. unfold onInterval.
    rewrite Hw. unfold check_effects. rewrite Hlost.
    rewrite IH; [by rewrite logged_logged | done |].
    by rewrite session_lost_logged.
Qed.

(** X11. A storage event on any other key is ignored by every listener; an
    event on the session key, or with a null key, runs the check once per
    registered listener, each run preceded by the listener's console
    line. *)
Theorem storage_event_filter (env : Env) (w : World) :
  (∀ key : string, key ≠ AUTH_SESSION_KEY →
     Loop.deliver env (Loop.StorageChanged (Some key)) w = w)
  ∧ (∀ key : option string, concerns_session key →
       Loop.deliver env (Loop.StorageChanged key) w
       = logged
           (concat
              (replicate (List.length (storage_listeners w))
                 (ConsoleDebug "[auth-guard]"
                    "Storage event detected, checking auth state"
                  :: check_effects env w))) w).
Proof.
  split.
  - intros key Hkey. simpl. rewrite dispatch_world. unfold reaction.
    rewrite (bool_decide_eq_false_2 (Some key = Some AUTH_SESSION_KEY))
      by congruence.
    rewrite (bool_decide_eq_false_2 (Some key = None)) by done. simpl.
    assert (concat (replicate (List.length (storage_listeners w))
                      ([] : list Effect)) = []) as ->.
    { induction (storage_listeners w); [done | by simpl]. }
    apply logged_nil.
  - intros key Hkey. simpl. rewrite dispatch_world. unfold reaction.
    assert (bool_decide (key = Some AUTH_SESSION_KEY)
            || bool_decide (key = None) = true) as ->; [|done].
    apply orb_true_iff. destruct Hkey as [->| ->];
      [left | right]; by apply bool_decide_eq_true_2.
Qed.

End GuardMore.

(** ** The guard across mounts and unmounts *)

Module LifecycleFacts.
Import Js Auth Guard Lifecycle AuthFacts GuardFacts GuardMore.

Lemma effect_run (env : Env) (sub : Subscription) (w : World) :
  effect env false sub w
  = match result_of (checkAuth env) w with
    | Ok _ =>
        (Ok (armed_subscription w), armed (logged (check_effects env w) w))
    | Throw e => (Throw e, w)
    end.
Proof.
  pose proof (checkAuth_world env w) as Hw.
  unfold world_after, result_of in *.
  destruct (checkAuth env w) as [[[]|e] w1] eqn:Hrun; simpl in Hw; subst w1.
  - by rewrite (effect_armed env sub w _ Hrun).
  - rewrite (effect_throws env sub w _ e Hrun). simpl. f_equal.
    rewrite checkAuth_run in Hrun.
    destruct (result_of (session_lost env) w) as [[]|e']; congruence.
Qed.

Lemma filter_older (n l : positive) (ls : list positive) :
  Forall (λ l', (l' < n)%positive) ls → (n ≤ l)%positive →
  filter (λ l', l' ≠ l) ls = ls.
Proof.
  intros Hall Hle. induction Hall as [|l' ls Hl' _ IH]; [done|].
  rewrite filter_cons_True by lia. by rewrite IH.
Qed.

Lemma cleanup_armed (w : World) :
  handles_fresh w →
  run_cleanup (armed_subscription w) (armed w)
  = (Ok (MkSubscription (Some (next_handle w)) None),
     MkWorld (sessionStorage w) (location_search w) (intervals w)
             (storage_listeners w) (Pos.succ (Pos.succ (next_handle w)))
             (trace w)).
Proof.
  intros [Hi Hl]. unfold run_cleanup, armed_subscription, armed. simpl.
  unfold mbind, M_bind, bind, mret, M_ret, ret, clearInterval,
    removeStorageListener. simpl. do 2 f_equal.
  - apply delete_insert_id.
    destruct (intervals w !! next_handle w) eqn:Hh; [|done].
    specialize (Hi (next_handle w)). rewrite Hh in Hi.
    specialize (Hi (mk_is_Some _ _ eq_refl)). lia.
  - rewrite filter_app, (filter_older (next_handle w)) by (done || lia).
    rewrite filter_cons_False, filter_nil by (by intros ?).
    by rewrite app_nil_r.
Qed.

Lemma mount_then {A} (env : Env) (k : Subscription → M A) (w : World) :
  (sub ← useAuthGuard env false; k sub) w
  = match result_of (checkAuth env) w with
    | Ok _ => k (armed_subscription w) (armed (logged (check_effects env w) w))
    | Throw e => (Throw e, w)
    end.
Proof.
  unfold useAuthGuard. unfold mbind at 1, M_bind at 1, bind at 1.
  rewrite effect_run. by destruct (result_of (checkAuth env) w).
Qed.

(** X12. On a page whose handles are fresh, mounting the guard and then
    unmounting it leaves the intervals and the storage listeners exactly as
    they were, whether the check tripped, did nothing or threw; and so does
    mounting it and then re-running its effect with the skip flag set, which
    is what happens on arrival at the login page. *)
Theorem mount_unmount_leaves_nothing (env : Env) (w : World) :
  handles_fresh w →
  (intervals (world_after (sub ← useAuthGuard env false; run_cleanup sub) w)
   = intervals w
   ∧ storage_listeners
       (world_after (sub ← useAuthGuard env false; run_cleanup sub) w)
     = storage_listeners w)
  ∧ (intervals
       (world_after (sub ← useAuthGuard env false; rerun env true sub) w)
     = intervals w
     ∧ storage_listeners
         (world_after (sub ← useAuthGuard env false; rerun env true sub) w)
       = storage_listeners w).
Proof.
  intros Hfresh. unfold world_after. rewrite !mount_then.
  destruct (result_of (checkAuth env) w) as [[]|e]; [|done].
  unfold rerun.
  assert (Hf : handles_fresh (logged (check_effects env w) w)) by done.
  pose proof (cleanup_armed _ Hf) as Hclean.
  change (armed_subscription w)
    with (armed_subscription (logged (check_effects env w) w)).
  unfold mbind, M_bind, bind. rewrite Hclean. by simpl.
Qed.

End LifecycleFacts.

(** ** The guard component *)

Module AuthGuardFacts.
Import Js Auth Guard Lifecycle AuthFacts GuardFacts GuardMore LifecycleFacts.

(** [isAuthenticated] reads nothing but the session storage. *)
Lemma isAuthenticated_storage (env : Env) (w w' : World) :
  sessionStorage w' = sessionStorage w →
  isAuthenticated env w' = (result_of (isAuthenticated env) w, w').
Proof.
  intros Hs. unfold result_of.
  destruct (isAuthRequired env) eqn:Hreq.
  - destruct (sessionStorage w) as [items|] eqn:Hw.
    + rewrite (isAuthenticated_available env w items Hreq Hw).
      by rewrite (isAuthenticated_available env w' items Hreq Hs).
    + rewrite (isAuthenticated_denied env w Hreq Hw).
      by rewrite (isAuthenticated_denied env w' Hreq Hs).
  - by rewrite !isAuthenticated_open.
Qed.

Lemma authenticated_open (env : Env) (w : World) (b : bool) :
  isAuthRequired env = false →
  result_of (isAuthenticated env) w = Ok b → b = true.
Proof.
  intros Hreq. unfold result_of. rewrite (isAuthenticated_open env w Hreq).
  simpl. congruence.
Qed.

(** X13. [AuthGuard]'s render reads and never writes, and it renders its
    children exactly when the page is the login page or the session is not
    lost; on any other page with the session lost it renders nothing. *)
Theorem render_protects (env : Env) (pathname : string) (w : World) :
  world_after (AuthGuard.render env pathname) w = w
  ∧ (result_of (AuthGuard.render env pathname) w = Ok true
     ↔ pathname = "/login" ∨ result_of (session_lost env) w = Ok false)
  ∧ (result_of (AuthGuard.render env pathname) w = Ok false
     ↔ pathname ≠ "/login" ∧ result_of (session_lost env) w = Ok true).
Proof.
  rewrite session_lost_false, session_lost_true.
  unfold AuthGuard.render, AuthGuard.isLoginPage, result_of, world_after.
  destruct (isAuthRequired env) eqn:Hreq; simpl.
  - destruct (pathname =? "/login") eqn:Hp.
    + apply String.eqb_eq in Hp. simpl. split; [done|].
      split; split; try done; [by left | by intros [? _]].
    + apply String.eqb_neq in Hp.
      unfold mbind, M_bind, bind, mret, M_ret, ret.
      pose proof (isAuthenticated_pure env w) as Hpure.
      unfold world_after in Hpure.
      destruct (isAuthenticated env w) as [[[]|e] w']; simpl in *; subst w';
        (split; [done|]); split; split; try done;
        try (by right; right); try (intros [?|[?|?]]; done);
        try (by intros [_ [_ ?]]).
  - split; [done|]. split; split; try done; [by right; left|].
    by intros [_ [? _]].
Qed.

Lemma component_effect_run (env : Env) (pathname : string) (w : World)
    (b : bool) :
  result_of (isAuthenticated env) w = Ok b →
  AuthGuard.effect env pathname w
  = (Ok tt,
     logged
       (SetAuthenticated b
        :: if negb b && negb (AuthGuard.isLoginPage pathname)
           then [ConsoleDebug "[auth-guard]"
                   "User not authenticated on mount, redirecting to login";
                 Navigate (MkNavigate "/login" true)]
           else []) w).
Proof.
  intros Hauth. unfold AuthGuard.effect.
  destruct (isAuthRequired env) eqn:Hreq.
  - unfold mbind at 1, M_bind at 1, bind at 1.
    rewrite (isAuthenticated_storage env w w eq_refl), Hauth.
    destruct (negb b && negb (AuthGuard.isLoginPage pathname));
      js_unfold; simpl; by rewrite <- ?app_assoc.
  - rewrite (authenticated_open env w b Hreq Hauth). by simpl.
Qed.

Lemma check_effects_authenticated (env : Env) (w : World) (b : bool) :
  result_of (isAuthenticated env) w = Ok b →
  check_effects env w = (if b then [] else tripped)
  ∧ result_of (checkAuth env) w = Ok tt.
Proof.
  intros Hauth. unfold check_effects, result_of at 2. rewrite checkAuth_run.
  destruct b.
  - assert (result_of (session_lost env) w = Ok false) as ->; [|done].
    apply session_lost_false. by right.
  - assert (result_of (session_lost env) w = Ok true) as ->; [|done].
    apply session_lost_true. split; [|done].
    destruct (isAuthRequired env) eqn:Hreq; [done|].
    by pose proof (authenticated_open env w false Hreq Hauth).
Qed.

(** What a first mount does, when [isAuthenticated] returns [b]. *)
Lemma mount_run (env : Env) (pathname : string) (w : World) (b : bool) :
  result_of (isAuthenticated env) w = Ok b →
  AuthGuard.mount env pathname w
  = if AuthGuard.isLoginPage pathname then
      (Ok (true, unmounted), logged [SetAuthenticated b] w)
    else
      (Ok (b, armed_subscription w),
       logged
         (SetAuthenticated b
          :: if b then []
             else [ConsoleDebug "[auth-guard]"
                     "User not authenticated on mount, redirecting to login";
                   Navigate (MkNavigate "/login" true)])
         (armed (logged (if b then [] else tripped) w))).
Proof.
  intros Hauth.
  destruct (render_protects env pathname w) as (Hpure & Htrue & Hfalse).
  destruct (check_effects_authenticated env w b Hauth) as [Hce Hck].
  unfold AuthGuard.mount.
  unfold mbind at 1, M_bind at 1, bind at 1.
  unfold result_of, world_after in Hpure, Htrue, Hfalse.
  destruct (AuthGuard.isLoginPage pathname) eqn:Hp.
  - assert (Hr : AuthGuard.render env pathname w = (Ok true, w)).
    { apply String.eqb_eq in Hp.
      destruct (AuthGuard.render env pathname w) as [r w']; simpl in *.
      subst w'. f_equal. apply Htrue. by left. }
    rewrite Hr. unfold useAuthGuard, effect.
    unfold mbind, M_bind, bind, mret, M_ret, ret.
    rewrite (component_effect_run env pathname w b Hauth), Hp.
    by rewrite andb_false_r.
  - apply String.eqb_neq in Hp.
    assert (Hr : AuthGuard.render env pathname w = (Ok b, w)).
    { destruct (AuthGuard.render env pathname w) as [r w']; simpl in *.
      subst w'. f_equal. destruct b.
      - apply Htrue. right. apply session_lost_false. by right.
      - apply Hfalse. split; [done|]. apply session_lost_true.
        split; [|done]. destruct (isAuthRequired env) eqn:Hreq; [done|].
        by pose proof (authenticated_open env w false Hreq Hauth). }
    rewrite Hr. rewrite mount_then, Hck, Hce.
    unfold mbind, M_bind, bind, mret, M_ret, ret.
    erewrite component_effect_run; last first.
    { unfold result_of.
      rewrite (isAuthenticated_storage env w
                 (armed (logged (if b then [] else tripped) w)) eq_refl).
      exact Hauth. }
    apply String.eqb_neq in Hp. unfold AuthGuard.isLoginPage. rewrite Hp.
    by destruct b.
Qed.

(** X14. Whenever the session can be read, a first mount of [AuthGuard] on
    any page does not throw and leaves the store's flag equal to what
    [isAuthenticated] returns. *)
Theorem mount_syncs_store (env : Env) (pathname : string) (w : World)
    (b : bool) :
  result_of (isAuthenticated env) w = Ok b →
  (∃ shown sub,
     result_of (AuthGuard.mount env pathname) w = Ok (shown, sub))
  ∧ store_flag (trace (world_after (AuthGuard.mount env pathname) w))
    = Some b.
Proof.
  intros Hauth. unfold result_of, world_after.
  rewrite (mount_run env pathname w b Hauth).
  destruct (AuthGuard.isLoginPage pathname); simpl.
  - split; [by eauto|]. unfold store_flag. by rewrite fold_left_app.
  - split; [by eauto|]. unfold store_flag.
    destruct b; by rewrite !fold_left_app.
Qed.

(** X15. A first mount of [AuthGuard] on a page other than ["/login"] with
    the session lost renders nothing, arms the guard, and asks twice for
    the replace-navigation to ["/login"]: once from the hook's check and
    once from the component's own effect, each after setting the store's
    flag to false. *)
Theorem mount_without_session (env : Env) (pathname : string) (w : World) :
  pathname ≠ "/login" →
  result_of (session_lost env) w = Ok true →
  AuthGuard.mount env pathname w
  = (Ok (false, armed_subscription w),
     logged
       [ConsoleDebug "[auth-guard]" "Session lost, redirecting to login";
        SetAuthenticated false;
        Navigate (MkNavigate "/login" true);
        SetAuthenticated false;
        ConsoleDebug "[auth-guard]"
          "User not authenticated on mount, redirecting to login";
        Navigate (MkNavigate "/login" true)]
       (armed w)).
Proof.
  intros Hp Hlost. apply session_lost_true in Hlost as [_ Hauth].
  rewrite (mount_run env pathname w false Hauth).
  apply String.eqb_neq in Hp. unfold AuthGuard.isLoginPage. rewrite Hp.
  f_equal. unfold logged, armed, tripped. simpl. by rewrite <- app_assoc.
Qed.

End AuthGuardFacts.

(** ** The login form *)

Module LoginRouteFacts.
Import Js Auth Guard Lifecycle Ui LoginRoute AuthFacts LoginFacts GuardFacts
  AuthMore RedirectFacts.

Lemma getRedirectUrl_returns (env : Env) (w : World) :
  ∃ url : string,
    getRedirectUrl env w = (Ok url, w)
    ∧ String.prefix (js_or (BASE_URL env) "/") url = true
    ∧ (∀ target,
         params_get (location_search w) "redirect" = Some target →
         target ≠ "" →
         String.prefix (js_or (BASE_URL env) "/") target = true →
         url = target).
Proof.
  unfold getRedirectUrl, search_param, mbind, M_bind, bind, mret, M_ret, ret.
  destruct (params_get (location_search w) "redirect") as [target|].
  - destruct (negb (target =? "")) eqn:Hne; simpl.
    + destruct (String.prefix (js_or (BASE_URL env) "/") target) eqn:Hpre.
      * exists target. repeat split; try done. by intros t [= <-].
      * eexists. repeat split; [apply prefix_refl|].
        intros t [= <-]. congruence.
    + eexists. repeat split; [apply prefix_refl|].
      intros t [= <-] Ht. apply negb_false_iff, String.eqb_eq in Hne. done.
  - eexists. repeat split; [apply prefix_refl | done].
Qed.

(** [handleSubmit] by cases on what [login] did. *)
Lemma handleSubmit_run (env : Env)
    (hashPassword : string → Result string) (t : string → string)
    (values : LoginForm) (s : PageState) (w : World) :
  handleSubmit env hashPassword t values s w
  = match login env hashPassword (username values) (password values) w with
    | (Ok true, w1) =>
        match getRedirectUrl env w1 with
        | (Ok url, _) =>
            (Ok tt,
             (MkPageState false None (console_errors s),
              logged [SetAuthenticated true;
                      ConsoleDebug "[login]"
                        "Authentication successful, redirecting...";
                      Navigate (MkNavigate url true)] w1))
        | (Throw e, _) =>
            (Ok tt,
             (MkPageState false (Some (t "login_error"))
                (console_errors s ++ [e]), w1))
        end
    | (Ok false, w1) =>
        (Ok tt,
         (MkPageState false (Some (t "invalid_credentials"))
            (console_errors s),
          logged [SetAuthenticated false] w1))
    | (Throw e, w1) =>
        (Ok tt,
         (MkPageState false (Some (t "login_error")) (console_errors s ++ [e]),
          logged [SetAuthenticated false] w1))
    end.
Proof.
  unfold handleSubmit, try_finally, try_catch, setLoading, setError,
    console_error, modify, lift.
  unfold mbind, L_bind, lbind, mret, L_ret, lret. simpl.
  destruct (login env hashPassword (username values) (password values) w)
    as [[[]|e] w1]; simpl; try done.
  destruct (getRedirectUrl_returns env
              (logged [ConsoleDebug "[login]"
                         "Authentication successful, redirecting..."]
                 (logged [SetAuthenticated true] w1))) as (url & Hrun & _).
  destruct (getRedirectUrl_returns env w1) as (url1 & Hrun1 & _).
  assert (url1 = url) as ->.
  { revert Hrun Hrun1. unfold getRedirectUrl, search_param, mbind, M_bind,
      bind, mret, M_ret, ret. simpl.
    destruct (params_get (location_search w1) "redirect") as [target|];
      [destruct (negb _ && _)|]; congruence. }
  js_unfold. simpl in *. rewrite Hrun1.
  unfold getRedirectUrl, search_param, mbind, M_bind, bind, mret, M_ret, ret
    in Hrun |- *. simpl in *.
  destruct (params_get (location_search w1) "redirect") as [target|];
    [destruct (negb _ && _)|]; simpl in *;
    injection Hrun as <-; by rewrite <- !app_assoc.
Qed.

(** X16. [handleSubmit] never throws, whatever [login] does: every
    exception is caught, and it always ends with the loading flag cleared.
    Like [login], it touches nothing of the page but the session key's entry
    and the trace. *)
Theorem handleSubmit_settles (env : Env)
    (hashPassword : string → Result string) (t : string → string)
    (values : LoginForm) (s : PageState) (w : World) :
  outcome (handleSubmit env hashPassword t values) s w = Ok tt
  ∧ loading (state_after (handleSubmit env hashPassword t values) s w) = false
  ∧ same_page w
      (page_world_after (handleSubmit env hashPassword t values) s w).
Proof.
  pose proof (same_page_login env hashPassword (username values)
                (password values) w) as Hsame.
  unfold outcome, state_after, page_world_after, world_after in *.
  rewrite handleSubmit_run.
  destruct (login env hashPassword (username values) (password values) w)
    as [[[]|e] w1]; simpl in *; try done.
  destruct (getRedirectUrl_returns env w1) as (url & -> & _). done.
Qed.

(** X17. When [login] returns true, [handleSubmit] clears the error, sets
    the store's flag to true and then asks for exactly one navigation: a
    history-replacing one to the URL [getRedirectUrl] returns, which starts
    with the base URL. *)
Theorem handleSubmit_success (env : Env)
    (hashPassword : string → Result string) (t : string → string)
    (values : LoginForm) (s : PageState) (w : World) :
  result_of (login env hashPassword (username values) (password values)) w
  = Ok true →
  ∃ url : string,
    result_of (getRedirectUrl env)
      (world_after (login env hashPassword (username values)
                      (password values)) w) = Ok url
    ∧ String.prefix (js_or (BASE_URL env) "/") url = true
    ∧ error (state_after (handleSubmit env hashPassword t values) s w) = None
    ∧ page_world_after (handleSubmit env hashPassword t values) s w
      = logged [SetAuthenticated true;
                ConsoleDebug "[login]"
                  "Authentication successful, redirecting...";
                Navigate (MkNavigate url true)]
          (world_after (login env hashPassword (username values)
                          (password values)) w).
Proof.
  unfold result_of, world_after, state_after, page_world_after.
  rewrite handleSubmit_run.
  destruct (login env hashPassword (username values) (password values) w)
    as [[[]|e] w1]; simpl; try done. intros _.
  destruct (getRedirectUrl_returns env w1) as (url & Hrun & Hpre & _).
  exists url. by rewrite Hrun.
Qed.

(** X18. When [login] does not return true, [handleSubmit] asks for no
    navigation at all: it sets the store's flag to false and shows an
    error -- the invalid-credentials message when [login] returned false,
    the generic one, after handing the exception to [console.error], when
    [login] threw. *)
Theorem handleSubmit_failure (env : Env)
    (hashPassword : string → Result string) (t : string → string)
    (values : LoginForm) (s : PageState) (w : World) :
  (result_of (login env hashPassword (username values) (password values)) w
   = Ok false →
   state_after (handleSubmit env hashPassword t values) s w
   = MkPageState false (Some (t "invalid_credentials")) (console_errors s)
   ∧ page_world_after (handleSubmit env hashPassword t values) s w
     = logged [SetAuthenticated false]
         (world_after (login env hashPassword (username values)
                         (password values)) w))
  ∧ (∀ e,
       result_of (login env hashPassword (username values) (password values))
         w = Throw e →
       state_after (handleSubmit env hashPassword t values) s w
       = MkPageState false (Some (t "login_error")) (console_errors s ++ [e])
       ∧ page_world_after (handleSubmit env hashPassword t values) s w
         = logged [SetAuthenticated false] w).
Proof.
  unfold result_of, world_after, state_after, page_world_after.
  rewrite handleSubmit_run.
  split.
  - destruct (login env hashPassword (username values) (password values) w)
      as [[[]|e] w1]; simpl; done.
  - intros e.
    destruct (login env hashPassword (username values) (password values) w)
      as [[[]|e'] w1] eqn:Hrun; simpl; try done.
    intros [= ->]. split; [done|]. f_equal.
    by apply login_throws_untouched in Hrun.
Qed.

End LoginRouteFacts.

(** ** The return path, the logout control and the digest's text *)

Module FlowFacts.
Import Js Auth Guard Lifecycle Ui LoginRoute AuthFacts LoginFacts GuardFacts
  AuthMore RootFacts RedirectFacts LoginRouteFacts.

(** X19. [getRedirectUrl] keeps a return URL that is non-empty and starts
    with the base URL, and it looks only at the first [redirect] parameter.
    With [BASE_URL] unset or empty the base URL is ["/"], so every target
    that begins with a slash is kept as it is. *)
Theorem getRedirectUrl_accepts (env : Env) (w : World) (target : string) :
  params_get (location_search w) "redirect" = Some target →
  target ≠ "" →
  (String.prefix (js_or (BASE_URL env) "/") target = true →
   getRedirectUrl env w = (Ok target, w))
  ∧ (blank (BASE_URL env) → String.prefix "/" target = true →
     getRedirectUrl env w = (Ok target, w))
  ∧ (∀ (name value : string) (entries : list (string * string)),
       location_search w = (name, value) :: entries → name = "redirect" →
       target = value).
Proof.
  intros Hget Hne.
  assert (Hkeep : String.prefix (js_or (BASE_URL env) "/") target = true →
                  getRedirectUrl env w = (Ok target, w)).
  { intros Hpre.
    destruct (getRedirectUrl_returns env w) as (url & Hrun & _ & Hkept).
    by rewrite Hrun, (Hkept target Hget Hne Hpre). }
  split; [done|]. split.
  - intros Hblank Hpre. apply Hkeep.
    assert (js_or (BASE_URL env) "/" = "/") as ->; [|done].
    unfold js_or. by destruct Hblank as [-> | ->].
  - intros name value entries Hsearch ->. rewrite Hsearch in Hget.
    simpl in Hget. congruence.
Qed.

(** X20. The return path survives the round trip through the login page.
    When the gate has redirected a target that starts with the base URL to
    the login page, and the login page is reached with the [redirect]
    parameter the gate supplied, a successful [handleSubmit] navigates --
    replacing the login page -- to that very target. *)
Theorem return_path_round_trip (env : Env)
    (hashPassword : string → Result string) (t : string → string)
    (pathname : string) (w0 w : World) (r : RedirectOptions)
    (values : LoginForm) (s : PageState) :
  pathname ≠ "/login" →
  pathname ≠ "" →
  String.prefix (js_or (BASE_URL env) "/") pathname = true →
  result_of (Root.beforeLoad env pathname) w0 = Throw (Redirected r) →
  params_get (location_search w) "redirect" = redirect_search r →
  result_of (login env hashPassword (username values) (password values)) w
  = Ok true →
  redirect_to r = "/login"
  ∧ page_world_after (handleSubmit env hashPassword t values) s w
    = logged [SetAuthenticated true;
              ConsoleDebug "[login]"
                "Authentication successful, redirecting...";
              Navigate (MkNavigate pathname true)]
        (world_after (login env hashPassword (username values)
                        (password values)) w).
Proof.
  intros Hp Hne Hpre Hgate Hsearch Hlogin.
  assert (r = MkRedirect "/login" (Some pathname)) as ->.
  { revert Hgate. unfold result_of. rewrite beforeLoad_run.
    apply String.eqb_neq in Hp. rewrite Hp.
    destruct (result_of (session_lost env) w0) as [[]|e] eqn:Hlost; simpl;
      try congruence.
    apply session_lost_throws in Hlost as ->. done. }
  split; [done|]. simpl in Hsearch.
  pose proof (same_page_login env hashPassword (username values)
                (password values) w) as (Hloc & _).
  unfold page_world_after, result_of, world_after in *.
  rewrite handleSubmit_run.
  destruct (login env hashPassword (username values) (password values) w)
    as [[[]|e] w1]; simpl in *; try done.
  destruct (getRedirectUrl_returns env w1) as (url & Hrun & _ & Hkept).
  rewrite Hrun. rewrite Hloc in Hkept.
  by rewrite (Hkept pathname Hsearch Hne Hpre).
Qed.

(** X21. Confirming the logout on a readable session storage deletes the
    session entry, sets the store's flag to false, closes the modal and
    pushes (does not replace) ["/login"]; [isAuthenticated] is then false
    whenever credentials are configured, and the gate lets that navigation
    through.  On a storage that cannot be accessed the handler throws at
    its first step: the store is not updated, the modal stays open and no
    navigation is requested. *)
Theorem logout_confirmed (env : Env) (opened : list string) (w : World) :
  (∀ items, sessionStorage w = Available items →
     Header.onConfirm opened w
     = (Ok tt,
        (filter (λ id, id ≠ Header.modalId) opened,
         logged [ConsoleDebug "[auth]" "User logged out";
                 SetAuthenticated false;
                 Navigate (MkNavigate "/login" false)]
           (with_storage (Available (delete AUTH_SESSION_KEY items)) w)))
     ∧ (isAuthRequired env = true →
        result_of (isAuthenticated env)
          (page_world_after Header.onConfirm opened w) = Ok false
        ∧ result_of (Root.beforeLoad env "/login")
            (page_world_after Header.onConfirm opened w) = Ok tt))
  ∧ (sessionStorage w = Denied →
     Header.onConfirm opened w = (Throw SecurityError, (opened, w))).
Proof.
  split.
  - intros items Hs.
    assert (Hrun : Header.onConfirm opened w
                   = (Ok tt,
                      (filter (λ id, id ≠ Header.modalId) opened,
                       logged [ConsoleDebug "[auth]" "User logged out";
                               SetAuthenticated false;
                               Navigate (MkNavigate "/login" false)]
                         (with_storage
                            (Available (delete AUTH_SESSION_KEY items)) w)))).
    { unfold Header.onConfirm, Header.modals_close, modify, lift.
      unfold mbind, L_bind, lbind. rewrite (logout_available w items Hs).
      js_unfold. simpl. by rewrite <- !app_assoc. }
    split; [done|]. intros Hreq. unfold page_world_after. rewrite Hrun.
    simpl.
    assert (Hauth : ∀ w', sessionStorage w'
                          = Available (delete AUTH_SESSION_KEY items) →
                          result_of (isAuthenticated env) w' = Ok false).
    { intros w' Hw'. unfold result_of.
      rewrite (isAuthenticated_available env w' _ Hreq Hw'). simpl.
      by rewrite bool_decide_eq_false_2 by (by rewrite lookup_delete_eq). }
    split; [by apply Hauth|].
    unfold result_of at 1. rewrite beforeLoad_run.
    assert (result_of (session_lost env)
              (logged [ConsoleDebug "[auth]" "User logged out";
                       SetAuthenticated false;
                       Navigate (MkNavigate "/login" false)]
                 (with_storage (Available (delete AUTH_SESSION_KEY items)) w))
            = Ok true) as ->; [|done].
    apply session_lost_true. split; [done|]. by apply Hauth.
  - intros Hs. unfold Header.onConfirm, lift.
    unfold mbind, L_bind, lbind. by rewrite (logout_denied w Hs).
Qed.

End FlowFacts.

(** ** The digest as text *)

Module DigestFacts.
Import Js Auth Digest AuthFacts LoginFacts AuthMore.

Lemma concat_cons (x : string) (xs : list string) :
  String.concat "" (x :: xs) = x ++ String.concat "" xs.
Proof.
  destruct xs as [|y ys]; [|done].
  change (x = x ++ "").
  induction x as [|c x IH]; [done|].
  change (String c x = String c (x ++ "")). by f_equal.
Qed.

Lemma two_chars_app (hi lo : ascii) (s : string) :
  String hi (String lo EmptyString) ++ s = String hi (String lo s).
Proof. reflexivity. Qed.

(** Every byte is written as exactly two lower-case hexadecimal digits that
    read back as the byte. *)
Lemma byte_hex (b : byte) :
  ∃ hi lo : ascii,
    padStart 2 "0" (toString16 b) = String hi (String lo EmptyString)
    ∧ is_lower_hex hi = true ∧ is_lower_hex lo = true
    ∧ ∀ rest bs, bytes_of_hex rest = Some bs →
        bytes_of_hex (String hi (String lo rest)) = Some (b :: bs).
Proof.
  destruct b; do 2 eexists;
    (split; [vm_compute; reflexivity|]);
    (split; [reflexivity|]); (split; [reflexivity|]);
    intros rest bs Hrest; cbn [bytes_of_hex]; rewrite Hrest; reflexivity.
Qed.

Lemma hex_reads_back (bytes : list byte) :
  bytes_of_hex (hex_of_bytes bytes) = Some bytes.
Proof.
  unfold hex_of_bytes. induction bytes as [|b bytes IH]; [done|].
  cbn [map]. rewrite concat_cons.
  destruct (byte_hex b) as (hi & lo & -> & _ & _ & Hread).
  by apply Hread.
Qed.

(** X22. The text [hashPassword] builds from a digest has two characters
    per byte, all of them lower-case hexadecimal digits, and reads back as
    the digest: two digests have the same text only if they are the same
    bytes. *)
Theorem hex_of_bytes_round_trip (bytes : list byte) :
  bytes_of_hex (hex_of_bytes bytes) = Some bytes
  ∧ String.length (hex_of_bytes bytes) = (2 * List.length bytes)%nat
  ∧ forallb is_lower_hex (list_ascii_of_string (hex_of_bytes bytes)) = true
  ∧ ∀ bytes', hex_of_bytes bytes = hex_of_bytes bytes' → bytes = bytes'.
Proof.
  split; [apply hex_reads_back|]. split; [|split].
  - unfold hex_of_bytes. induction bytes as [|b bytes IH]; [done|].
    cbn [map]. rewrite concat_cons.
    destruct (byte_hex b) as (hi & lo & -> & _). rewrite two_chars_app.
    cbn [String.length List.length]. rewrite IH. simpl. lia.
  - unfold hex_of_bytes. induction bytes as [|b bytes IH]; [done|].
    cbn [map]. rewrite concat_cons.
    destruct (byte_hex b) as (hi & lo & -> & Hhi & Hlo & _).
    rewrite two_chars_app. cbn [list_ascii_of_string forallb].
    by rewrite Hhi, Hlo.
  - intros bytes' Heq. pose proof (hex_reads_back bytes) as H1.
    rewrite Heq, hex_reads_back in H1. congruence.
Qed.

(** X23. With [hashPassword] as the code builds it, [login] compares
    digests and nothing else about the password: with authentication
    required and a writable storage it returns true exactly when the
    username is the configured one and the platform computes, for the given
    password and for the configured one, the same digest.  When the
    platform fails to compute either digest, [login] rejects with that
    failure and leaves the world untouched. *)
Theorem login_compares_digests (env : Env) (encode : string → list byte)
    (digest : list byte → Result (list byte)) (username password : string)
    (w : World) (items : gmap string string) :
  isAuthRequired env = true →
  sessionStorage w = Available items →
  (result_of (login env (hashPassword encode digest) username password) w
   = Ok true
   ↔ Some username = VITE_AUTH_USERNAME env
     ∧ ∃ bytes,
         digest (encode password) = Ok bytes
         ∧ digest (encode (text (VITE_AUTH_PASSWORD env))) = Ok bytes)
  ∧ (∀ e, digest (encode password) = Throw e →
       login env (hashPassword encode digest) username password w
       = (Throw e, w))
  ∧ (∀ bytes e,
       digest (encode password) = Ok bytes →
       digest (encode (text (VITE_AUTH_PASSWORD env))) = Throw e →
       login env (hashPassword encode digest) username password w
       = (Throw e, w)).
Proof.
  intros Hreq Hs. unfold result_of. rewrite login_required_run by done.
  unfold hashPassword.
  destruct (digest (encode password)) as [provided|e1] eqn:Hp;
    destruct (digest (encode (text (VITE_AUTH_PASSWORD env))))
      as [expected|e2] eqn:He; simpl.
  - split; [|split; [done | by intros]].
    pose proof (credentials_match username (VITE_AUTH_USERNAME env)
                  (hex_of_bytes provided) (hex_of_bytes expected)) as Hm.
    destruct (bool_decide _ && _) eqn:Hb; rewrite ?Hs; simpl.
    + destruct (proj1 Hm eq_refl) as [Hu Hhex]. split; [|done].
      intros _. split; [done|]. exists provided. split; [done|].
      pose proof (hex_reads_back provided) as Hback.
      rewrite Hhex, hex_reads_back in Hback. congruence.
    + split; [done|]. intros (Hu & bytes & [= ->] & [= ->]).
      by destruct (proj2 Hm (conj Hu eq_refl)).
  - split; [|split; [done | by intros bytes e _ [= ->]]].
    split; [done | by intros (_ & bytes & _ & ?)].
  - split; [|split; [by intros e [= ->] | done]].
    split; [done | by intros (_ & bytes & ? & _)].
  - split; [|split; [by intros e [= ->] | done]].
    split; [done | by intros (_ & bytes & ? & _)].
Qed.

End DigestFacts.

(** ** The properties above, at concrete inputs *)

Module Witness.
Import Js Auth Sample Sample2 AuthFacts LoginFacts.

(** Open access in a world whose storage cannot even be read; and the
    configured case on a signed-in page. *)
Lemma session_predicates_witness :
  (blank (VITE_AUTH_USERNAME env_open) ∨ blank (VITE_AUTH_PASSWORD env_open))
  ∧ isAuthenticated env_open blocked = (Ok true, blocked)
  ∧ ¬ blank (VITE_AUTH_USERNAME env_admin)
  ∧ ¬ blank (VITE_AUTH_PASSWORD env_admin)
  ∧ (result_of (isAuthenticated env_admin) signed_in = Ok true
     ↔ stored (sessionStorage signed_in) AUTH_SESSION_KEY
       = Some "authenticated").
Proof.
  assert (Hb : blank (VITE_AUTH_USERNAME env_open)
               ∨ blank (VITE_AUTH_PASSWORD env_open))
    by (left; left; reflexivity).
  assert (Hu : ¬ blank (VITE_AUTH_USERNAME env_admin))
    by (intros [H|H]; discriminate H).
  assert (Hp : ¬ blank (VITE_AUTH_PASSWORD env_admin))
    by (intros [H|H]; discriminate H).
  split; [exact Hb|].
  split; [exact (proj2 (proj1 (session_predicates env_open blocked) Hb))|].
  split; [exact Hu|]. split; [exact Hp|].
  exact (proj1 (proj2 (proj2 (session_predicates env_admin signed_in)
                         Hu Hp))).
Defined.

Lemma login_outcomes_witness :
  (VITE_AUTH_USERNAME env_admin = Some "admin"
   ∧ VITE_AUTH_PASSWORD env_admin = Some "secret"
   ∧ sessionStorage fresh = Available ∅
   ∧ "root" ≠ "admin" ∧ "wrong" ≠ "secret"
   ∧ tag_digest "secret" = Ok "sha256:secret"
   ∧ tag_digest "wrong" = Ok "sha256:wrong"
   ∧ "sha256:wrong" ≠ "sha256:secret")
  ∧ result_of (login env_admin tag_digest "admin" "secret") fresh = Ok true
  ∧ result_of (login env_admin tag_digest "admin" "wrong") fresh = Ok false
  ∧ result_of (login env_admin tag_digest "root" "secret") fresh = Ok false
  ∧ sessionStorage
      (world_after (login env_admin tag_digest "admin" "wrong") fresh)
    = sessionStorage fresh
  ∧ promise_all (no_digest "secret") (no_digest "secret") = Throw DigestError
  ∧ login env_admin no_digest "admin" "secret" fresh
    = (Throw DigestError, fresh).
Proof.
  split; [repeat split; discriminate|].
  destruct (login_outcomes env_admin tag_digest fresh ∅
              "admin" "secret" "root" "wrong") as [Hresolved _];
    try reflexivity; try discriminate.
  destruct (Hresolved "sha256:secret" eq_refl)
    as ((Hok & _) & Hpass & (Huser & _)).
  destruct (Hpass "sha256:wrong" eq_refl) as [Hwrong Hsame];
    [discriminate|].
  destruct (login_outcomes env_admin no_digest fresh ∅
              "admin" "secret" "root" "wrong") as [_ Hfails];
    try reflexivity; try discriminate.
  unfold result_of. rewrite Hok, Hwrong, Huser. simpl.
  do 4 (split; [done|]). split; [reflexivity|].
  exact (Hfails "admin" "secret" DigestError eq_refl).
Defined.

Lemma login_logout_round_trip_witness :
  isAuthRequired env_admin = true
  ∧ result_of (login env_admin tag_digest "admin" "secret") fresh = Ok true
  ∧ result_of (isAuthenticated env_admin)
      (world_after (login env_admin tag_digest "admin" "secret") fresh)
    = Ok true
  ∧ result_of (isAuthenticated env_admin)
      (world_after logout
         (world_after (login env_admin tag_digest "admin" "secret") fresh))
    = Ok false.
Proof.
  split; [reflexivity|]. split; [reflexivity|].
  destruct (login_logout_round_trip env_admin tag_digest "admin" "secret"
              fresh) as (Hin & _ & Hout & _); [reflexivity | reflexivity |].
  by split.
Defined.

(** A page with no session trips the check; a signed-in page does not. *)
Lemma guard_validity_check_witness :
  result_of (session_lost env_admin) fresh = Ok true
  ∧ Guard.checkAuth env_admin fresh = (Ok tt, logged Guard.tripped fresh)
  ∧ result_of (session_lost env_admin) signed_in = Ok false
  ∧ Guard.checkAuth env_admin signed_in = (Ok tt, signed_in).
Proof.
  assert (Hlost : result_of (session_lost env_admin) fresh = Ok true)
    by reflexivity.
  assert (Hkept : result_of (session_lost env_admin) signed_in = Ok false)
    by reflexivity.
  split; [exact Hlost|].
  split; [exact (proj1 (proj1 (GuardFacts.guard_validity_check
                                 env_admin fresh) Hlost))|].
  split; [exact Hkept|].
  exact (proj1 (proj2 (GuardFacts.guard_validity_check
                         env_admin signed_in) Hkept)).
Defined.

Lemma gate_on_login_surface_witness :
  result_of (session_lost env_admin) fresh = Ok true
  ∧ Root.beforeLoad env_admin "/login" fresh = (Ok tt, fresh)
  ∧ result_of (session_lost env_admin) signed_in = Ok false
  ∧ result_of (Root.beforeLoad env_admin "/login") signed_in
    = Throw (Redirected (MkRedirect "/" None)).
Proof.
  assert (Hlost : result_of (session_lost env_admin) fresh = Ok true)
    by reflexivity.
  assert (Hkept : result_of (session_lost env_admin) signed_in = Ok false)
    by reflexivity.
  split; [exact Hlost|].
  split; [exact (proj1 (RootFacts.gate_on_login_surface env_admin fresh)
                   Hlost)|].
  split; [exact Hkept|].
  unfold result_of.
  by rewrite (proj1 (proj2 (RootFacts.gate_on_login_surface
                              env_admin signed_in)) Hkept).
Defined.

Lemma gate_redirects_to_login_witness :
  "/ins/0/index" ≠ "/login"
  ∧ result_of (session_lost env_admin) fresh = Ok true
  ∧ result_of (Root.beforeLoad env_admin "/ins/0/index") fresh
    = Throw (Redirected (MkRedirect "/login" (Some "/ins/0/index"))).
Proof.
  assert (Hpath : "/ins/0/index" ≠ "/login") by discriminate.
  assert (Hlost : result_of (session_lost env_admin) fresh = Ok true)
    by reflexivity.
  split; [exact Hpath|]. split; [exact Hlost|].
  unfold result_of.
  by rewrite (RootFacts.gate_redirects_to_login env_admin "/ins/0/index"
                fresh Hpath Hlost).
Defined.

Lemma storage_failure_propagates_witness :
  (isAuthRequired env_admin = true ∧ sessionStorage blocked = Denied)
  ∧ isAuthenticated env_admin blocked = (Throw SecurityError, blocked)
  ∧ (sessionStorage fresh = Available ∅
     ∧ (∅ : gmap string string) !! AUTH_SESSION_KEY = None)
  ∧ isAuthenticated env_admin fresh = (Ok false, fresh)
  ∧ isAuthRequired env_open = false
  ∧ isAuthenticated env_open blocked = (Ok true, blocked).
Proof.
  split; [by split|].
  split; [exact (proj1 (proj1 (GuardFacts.storage_failure_propagates
                                 env_admin blocked) eq_refl eq_refl))|].
  split; [by split|].
  split; [exact (proj1 (proj1 (proj2 (GuardFacts.storage_failure_propagates
                                        env_admin fresh))
                          eq_refl ∅ eq_refl eq_refl))|].
  split; [reflexivity|].
  exact (proj1 (proj2 (proj2 (GuardFacts.storage_failure_propagates
                                env_open blocked)) eq_refl)).
Defined.

(** A return URL on another origin is replaced by the base URL. *)
Lemma getRedirectUrl_within_base_witness :
  params_get (location_search (returning "https://elsewhere.example/x"))
    "redirect" = Some "https://elsewhere.example/x"
  ∧ String.prefix (js_or (BASE_URL env_admin) "/")
      "https://elsewhere.example/x" = false
  ∧ result_of (getRedirectUrl env_admin)
      (returning "https://elsewhere.example/x") = Ok "/".
Proof.
  split; [reflexivity|]. split; [reflexivity|].
  destruct (RedirectFacts.getRedirectUrl_within_base env_admin
              (returning "https://elsewhere.example/x"))
    as (url & Hrun & _ & Hrejected & _).
  unfold result_of. rewrite Hrun. simpl. f_equal.
  apply (Hrejected "https://elsewhere.example/x"); reflexivity.
Defined.

Lemma skipped_guard_is_inert_witness :
  intervals fresh = ∅
  ∧ storage_listeners fresh = []
  ∧ Loop.run env_admin
      [Loop.Tick 1; Loop.StorageChanged None;
       Loop.StorageChanged (Some AUTH_SESSION_KEY)]
      (world_after (Guard.useAuthGuard env_admin true) fresh)
    = fresh.
Proof.
  split; [reflexivity|]. split; [reflexivity|].
  apply (proj2 (proj2 (proj2 (proj2 (proj2
           (GuardFacts.skipped_guard_is_inert env_admin fresh
              Guard.unmounted))))));
    reflexivity.
Defined.


Lemma login_true_iff_witness :
  isAuthRequired env_admin = true
  ∧ (result_of (login env_admin tag_digest "admin" "secret") fresh = Ok true
     ↔ Some "admin" = VITE_AUTH_USERNAME env_admin
       ∧ (∃ digest,
            tag_digest "secret" = Ok digest
            ∧ tag_digest (text (VITE_AUTH_PASSWORD env_admin)) = Ok digest)
       ∧ ∃ items, sessionStorage fresh = Available items)
  ∧ promise_all (no_digest "secret")
      (no_digest (text (VITE_AUTH_PASSWORD env_admin))) = Throw DigestError
  ∧ login env_admin no_digest "admin" "secret" blocked
    = (Throw DigestError, blocked).
Proof.
  split; [reflexivity|].
  split; [exact (proj1 (AuthMore.login_true_iff env_admin tag_digest "admin"
                          "secret" fresh eq_refl))|].
  split; [reflexivity|].
  exact (proj2 (proj2 (AuthMore.login_true_iff env_admin no_digest "admin"
                         "secret" blocked eq_refl)) DigestError eq_refl).
Defined.

Lemma login_open_access_witness :
  isAuthRequired env_open = false
  ∧ sessionStorage blocked = Denied
  ∧ login env_open tag_digest "anyone" "anything" blocked
    = (Throw SecurityError, blocked).
Proof.
  split; [reflexivity|]. split; [reflexivity|].
  exact (proj2 (AuthMore.login_open_access env_open tag_digest "anyone"
                  "anything" blocked eq_refl) eq_refl).
Defined.

Lemma gate_redirect_lands_witness :
  result_of (Root.beforeLoad env_admin "/ins/0") fresh
  = Throw (Redirected (MkRedirect "/login" (Some "/ins/0")))
  ∧ result_of (Root.beforeLoad env_admin "/login")
      (world_after (Root.beforeLoad env_admin "/ins/0") fresh) = Ok tt.
Proof.
  split; [reflexivity|].
  pose proof (GateMore.gate_redirect_lands env_admin "/ins/0" fresh
                (MkRedirect "/login" (Some "/ins/0")) eq_refl) as Hland.
  unfold result_of at 1. exact (f_equal fst Hland).
Defined.

Lemma gate_on_denied_storage_witness :
  isAuthRequired env_admin = true
  ∧ sessionStorage blocked = Denied
  ∧ Root.beforeLoad env_admin "/login" blocked = (Throw SecurityError, blocked).
Proof.
  split; [reflexivity|]. split; [reflexivity|].
  exact (GateMore.gate_on_denied_storage env_admin "/login" blocked
           eq_refl eq_refl).
Defined.

Lemma gate_agrees_with_guard_witness :
  "/ins/0" ≠ "/login"
  ∧ (result_of (Root.beforeLoad env_admin "/ins/0") fresh
     = Throw (Redirected (MkRedirect "/login" (Some "/ins/0")))
     ↔ Guard.checkAuth env_admin fresh = (Ok tt, logged Guard.tripped fresh)).
Proof.
  assert (Hp : "/ins/0" ≠ "/login") by discriminate.
  split; [exact Hp|].
  exact (proj1 (GateMore.gate_agrees_with_guard env_admin "/ins/0" fresh Hp)).
Defined.

Lemma events_only_append_witness :
  result_of (session_lost env_admin) guarded = Ok false
  ∧ ∃ es : list Effect,
      Loop.run env_admin
        [Loop.Tick 1; Loop.StorageChanged None; Loop.Tick 1] guarded
      = logged es guarded
      ∧ forallb Lifecycle.is_console es = true.
Proof.
  assert (Hvalid : result_of (session_lost env_admin) guarded = Ok false)
    by reflexivity.
  split; [exact Hvalid|].
  destruct (GuardMore.events_only_append env_admin
              [Loop.Tick 1; Loop.StorageChanged None; Loop.Tick 1] guarded)
    as (es & Hrun & Hconsole).
  exists es. split; [exact Hrun | exact (Hconsole Hvalid)].
Defined.

Lemma ticks_keep_tripping_witness :
  is_Some (intervals tampered !! 1%positive)
  ∧ result_of (session_lost env_admin) tampered = Ok true
  ∧ Loop.run env_admin [Loop.Tick 1; Loop.Tick 1] tampered
    = logged (Guard.tripped ++ Guard.tripped) tampered.
Proof.
  assert (Hh : is_Some (intervals tampered !! 1%positive))
    by (exists 1000; reflexivity).
  split; [exact Hh|]. split; [reflexivity|].
  exact (GuardMore.ticks_keep_tripping env_admin 1 2 tampered Hh eq_refl).
Defined.

Lemma storage_event_filter_witness :
  "theme" ≠ AUTH_SESSION_KEY
  ∧ Loop.deliver env_admin (Loop.StorageChanged (Some "theme")) tampered
    = tampered.
Proof.
  assert (Hkey : "theme" ≠ AUTH_SESSION_KEY) by discriminate.
  split; [exact Hkey|].
  exact (proj1 (GuardMore.storage_event_filter env_admin tampered)
           "theme" Hkey).
Defined.

Lemma fresh_handles_fresh : Lifecycle.handles_fresh fresh.
Proof.
  split; [|constructor]. intros h [d Hd]. simpl in Hd.
  by rewrite lookup_empty in Hd.
Defined.

Lemma mount_unmount_leaves_nothing_witness :
  Lifecycle.handles_fresh fresh
  ∧ intervals
      (world_after (sub ← Guard.useAuthGuard env_admin false;
                    Guard.run_cleanup sub) fresh)
    = intervals fresh
  ∧ storage_listeners
      (world_after (sub ← Guard.useAuthGuard env_admin false;
                    Guard.run_cleanup sub) fresh)
    = storage_listeners fresh.
Proof.
  split; [exact fresh_handles_fresh|].
  exact (proj1 (LifecycleFacts.mount_unmount_leaves_nothing env_admin fresh
                  fresh_handles_fresh)).
Defined.

Lemma mount_syncs_store_witness :
  result_of (isAuthenticated env_admin) signed_in = Ok true
  ∧ Lifecycle.store_flag
      (trace (world_after (AuthGuard.mount env_admin "/ins/0") signed_in))
    = Some true.
Proof.
  split; [reflexivity|].
  exact (proj2 (AuthGuardFacts.mount_syncs_store env_admin "/ins/0" signed_in
                  true eq_refl)).
Defined.

Lemma mount_without_session_witness :
  "/ins/0" ≠ "/login"
  ∧ result_of (session_lost env_admin) fresh = Ok true
  ∧ result_of (AuthGuard.mount env_admin "/ins/0") fresh
    = Ok (false, Lifecycle.armed_subscription fresh).
Proof.
  assert (Hp : "/ins/0" ≠ "/login") by discriminate.
  split; [exact Hp|]. split; [reflexivity|].
  unfold result_of.
  by rewrite (AuthGuardFacts.mount_without_session env_admin "/ins/0" fresh
                Hp eq_refl).
Defined.

Lemma handleSubmit_success_witness :
  result_of (login env_admin tag_digest "admin" "secret")
    (returning "/ins/0") = Ok true
  ∧ ∃ url : string,
      result_of (getRedirectUrl env_admin)
        (world_after (login env_admin tag_digest "admin" "secret")
           (returning "/ins/0")) = Ok url
      ∧ String.prefix (js_or (BASE_URL env_admin) "/") url = true.
Proof.
  split; [reflexivity|].
  destruct (LoginRouteFacts.handleSubmit_success env_admin tag_digest keys
              (LoginRoute.MkLoginForm "admin" "secret") idle
              (returning "/ins/0") eq_refl)
    as (url & Hurl & Hpre & _).
  exists url. split; [exact Hurl | exact Hpre].
Defined.

Lemma handleSubmit_failure_witness :
  result_of (login env_admin tag_digest "admin" "wrong") fresh = Ok false
  ∧ Ui.state_after
      (LoginRoute.handleSubmit env_admin tag_digest keys
         (LoginRoute.MkLoginForm "admin" "wrong")) idle fresh
    = LoginRoute.MkPageState false (Some "invalid_credentials") []
  ∧ result_of (login env_admin tag_digest "admin" "secret") blocked
    = Throw SecurityError
  ∧ Ui.state_after
      (LoginRoute.handleSubmit env_admin tag_digest keys
         (LoginRoute.MkLoginForm "admin" "secret")) idle blocked
    = LoginRoute.MkPageState false (Some "login_error") [SecurityError].
Proof.
  split; [reflexivity|].
  split; [exact (proj1 (proj1 (LoginRouteFacts.handleSubmit_failure env_admin
                                 tag_digest keys
                                 (LoginRoute.MkLoginForm "admin" "wrong")
                                 idle fresh) eq_refl))|].
  split; [reflexivity|].
  exact (proj1 (proj2 (LoginRouteFacts.handleSubmit_failure env_admin
                         tag_digest keys
                         (LoginRoute.MkLoginForm "admin" "secret")
                         idle blocked) SecurityError eq_refl)).
Defined.

(** With the base URL ["/"], a target on another host written without a
    scheme is kept as it is. *)
Lemma getRedirectUrl_accepts_witness :
  params_get (location_search (returning "//elsewhere.example/x")) "redirect"
  = Some "//elsewhere.example/x"
  ∧ "//elsewhere.example/x" ≠ ""
  ∧ String.prefix (js_or (BASE_URL env_admin) "/") "//elsewhere.example/x"
    = true
  ∧ getRedirectUrl env_admin (returning "//elsewhere.example/x")
    = (Ok "//elsewhere.example/x", returning "//elsewhere.example/x").
Proof.
  assert (Hne : "//elsewhere.example/x" ≠ "") by discriminate.
  split; [reflexivity|]. split; [exact Hne|]. split; [reflexivity|].
  exact (proj1 (FlowFacts.getRedirectUrl_accepts env_admin
                  (returning "//elsewhere.example/x")
                  "//elsewhere.example/x" eq_refl Hne) eq_refl).
Defined.

Lemma return_path_round_trip_witness :
  result_of (Root.beforeLoad env_admin "/ins/0") fresh
  = Throw (Redirected (MkRedirect "/login" (Some "/ins/0")))
  ∧ result_of (login env_admin tag_digest "admin" "secret")
      (returning "/ins/0") = Ok true
  ∧ Ui.page_world_after
      (LoginRoute.handleSubmit env_admin tag_digest keys
         (LoginRoute.MkLoginForm "admin" "secret")) idle (returning "/ins/0")
    = logged [SetAuthenticated true;
              ConsoleDebug "[login]"
                "Authentication successful, redirecting...";
              Navigate (MkNavigate "/ins/0" true)]
        (world_after (login env_admin tag_digest "admin" "secret")
           (returning "/ins/0")).
Proof.
  split; [reflexivity|]. split; [reflexivity|].
  refine (proj2 (FlowFacts.return_path_round_trip env_admin tag_digest keys
                   "/ins/0" fresh (returning "/ins/0")
                   (MkRedirect "/login" (Some "/ins/0"))
                   (LoginRoute.MkLoginForm "admin" "secret") idle
                   _ _ eq_refl eq_refl eq_refl eq_refl)); discriminate.
Defined.

Lemma logout_confirmed_witness :
  sessionStorage signed_in
  = Available {[ AUTH_SESSION_KEY := "authenticated" ]}
  ∧ isAuthRequired env_admin = true
  ∧ result_of (isAuthenticated env_admin)
      (Ui.page_world_after Header.onConfirm [Header.modalId] signed_in)
    = Ok false
  ∧ sessionStorage blocked = Denied
  ∧ Header.onConfirm [Header.modalId] blocked
    = (Throw SecurityError, ([Header.modalId], blocked)).
Proof.
  split; [reflexivity|]. split; [reflexivity|].
  split; [exact (proj1 (proj2 (proj1 (FlowFacts.logout_confirmed env_admin
                                        [Header.modalId] signed_in)
                                 _ eq_refl) eq_refl))|].
  split; [reflexivity|].
  exact (proj2 (FlowFacts.logout_confirmed env_admin [Header.modalId] blocked)
           eq_refl).
Defined.

Lemma hex_of_bytes_round_trip_witness :
  Digest.hex_of_bytes [x00; xff; x1a] = "00ff1a"
  ∧ (Digest.hex_of_bytes [x00; xff; x1a] = Digest.hex_of_bytes [x00; xff; x1a]
     → [x00; xff; x1a] = [x00; xff; x1a]).
Proof.
  split; [reflexivity|].
  exact (proj2 (proj2 (proj2 (DigestFacts.hex_of_bytes_round_trip
                                [x00; xff; x1a]))) [x00; xff; x1a]).
Defined.

Lemma login_compares_digests_witness :
  isAuthRequired env_admin = true
  ∧ sessionStorage fresh = Available ∅
  ∧ (result_of
       (login env_admin (Digest.hashPassword list_byte_of_string toy_digest)
          "admin" "secret") fresh = Ok true
     ↔ Some "admin" = VITE_AUTH_USERNAME env_admin
       ∧ ∃ bytes,
           toy_digest (list_byte_of_string "secret") = Ok bytes
           ∧ toy_digest
               (list_byte_of_string (text (VITE_AUTH_PASSWORD env_admin)))
             = Ok bytes)
  ∧ no_subtle (list_byte_of_string "secret") = Throw DigestError
  ∧ login env_admin (Digest.hashPassword list_byte_of_string no_subtle)
      "admin" "secret" fresh
    = (Throw DigestError, fresh).
Proof.
  split; [reflexivity|]. split; [reflexivity|].
  split; [exact (proj1 (DigestFacts.login_compares_digests env_admin
                          list_byte_of_string toy_digest "admin" "secret"
                          fresh ∅ eq_refl eq_refl))|].
  split; [reflexivity|].
  exact (proj1 (proj2 (DigestFacts.login_compares_digests env_admin
                         list_byte_of_string no_subtle "admin" "secret"
                         fresh ∅ eq_refl eq_refl)) DigestError eq_refl).
Defined.

End Witness.
